(** * mec-one: authentication, session and authorization core

    A shallow embedding of the server side of the repository:

    - [server/auth.ts]: [JWT_SECRET], [JWT_REFRESH_SECRET], [generateTokens],
      [verifyToken], [verifyRefreshToken], [comparePassword],
      [generateTemporaryPassword], [authenticate], [authorize];
    - [server/storage.ts]: the user, session and audit operations of
      [DatabaseStorage];
    - [server/routes.ts]: the handlers of [POST /api/auth/login],
      [POST /api/auth/refresh] and [POST /api/auth/logout].

    The database is a record of tables (lists of rows, in table order).
    An [await]ed storage call either returns or throws, and what it wrote
    before throwing stays written: the monad [M] keeps the store on both
    outcomes.  The libraries the code calls but does not contain
    (jsonwebtoken, bcrypt, the database driver's failures) are the variables
    of [Section Server]. *)

From Stdlib Require Import String Ascii List ZArith Bool Lia.
Import ListNotations.
Open Scope string_scope.
Open Scope Z_scope.

(** ** JavaScript values the handlers touch *)

(** [!x] for a value that is a string or [undefined]. *)
Definition falsy (x : option string) : bool :=
  match x with
  | None => true
  | Some s => (s =? "")%string
  end.

(** [x || d] for a string or [undefined] on the left. *)
Definition or_default (x : option string) (d : string) : string :=
  match x with
  | None => d
  | Some s => if (s =? "")%string then d else s
  end.

(** [s.split(sep)] for a one-character separator. *)
Fixpoint split (sep : ascii) (s : string) : list string :=
  match s with
  | EmptyString => [EmptyString]
  | String c rest =>
      if Ascii.eqb c sep then EmptyString :: split sep rest
      else match split sep rest with
           | [] => [String c EmptyString]
           | w :: ws => String c w :: ws
           end
  end.

(** [xs.includes(x)] on an array of strings. *)
Fixpoint includes (xs : list string) (x : string) : bool :=
  match xs with
  | [] => false
  | y :: ys => (y =? x)%string || includes ys x
  end.

(** [s.slice(-n)]: the last [n] characters, the whole string when it is
    shorter. *)
Definition slice_last (n : nat) (s : string) : string :=
  substring (String.length s - n) n s.

(** JSON bodies. *)
#[local] Set Warnings "-register-all".
Inductive Json : Type :=
| JNull
| JBool (b : bool)
| JStr (s : string)
| JObj (fields : list (string * Json)).

Record Response : Type := mkResponse {
  status : Z;
  body : Json
}.

(** [res.status(code).json({ message })]. *)
Definition message (code : Z) (msg : string) : Response :=
  {| status := code; body := JObj [("message", JStr msg)] |}.

(** [res.json(obj)]: status 200. *)
Definition json (obj : Json) : Response :=
  {| status := 200; body := obj |}.

(** ** Data model ([shared/schema.ts]) *)

(** Milliseconds since the epoch. *)
Definition Time : Type := Z.

Record User : Type := mkUser {
  user_id : string;
  user_email : string;
  user_firstName : string;
  user_lastName : string;
  user_password : string;
  user_profile : string;
  user_isActive : bool;
  user_temporaryPassword : bool;
  user_mustChangePassword : bool;
  user_lastLogin : option Time;
  user_createdAt : Time;
  user_updatedAt : Time;
  user_createdBy : option string;
  user_updatedBy : option string
}.

(** A row of [user_sessions]; the generated [id] column is never read by
    the server and is left out. *)
Record Session : Type := mkSession {
  sess_userId : string;
  sess_token : string;
  sess_isActive : bool;
  sess_expiresAt : Time;
  sess_ipAddress : option string;
  sess_userAgent : option string;
  sess_createdAt : Time;
  sess_lastUsed : Time
}.

(** [InsertAuditLog]: a row of [audit_logs] without [id] and [createdAt]. *)
Record InsertAuditLog : Type := mkInsertAuditLog {
  log_userId : option string;
  log_action : string;
  log_table : string;
  log_recordId : option string;
  log_oldValues : option Json;
  log_newValues : option Json;
  log_ipAddress : option string;
  log_userAgent : option string
}.

Record AuditLog : Type := mkAuditLog {
  audit_entry : InsertAuditLog;
  audit_createdAt : Time
}.

Record Store : Type := mkStore {
  users : list User;
  userSessions : list Session;
  auditLogs : list AuditLog
}.

(** [TokenPayload] and [AuthRequest.user] of [server/auth.ts]. *)
Record TokenPayload : Type := mkTokenPayload {
  tp_userId : string;
  tp_email : string;
  tp_profile : string
}.

Record AuthUser : Type := mkAuthUser {
  au_id : string;
  au_email : string;
  au_profile : string
}.

(** What the handlers read of an Express request. *)
Record Request : Type := mkRequest {
  headers_authorization : option string;
  body_email : option string;
  body_password : option string;
  body_refreshToken : option string;
  req_ip : option string;
  req_userAgent : option string;
  req_user : option AuthUser
}.

Definition set_user (req : Request) (u : AuthUser) : Request :=
  {| headers_authorization := headers_authorization req;
     body_email := body_email req;
     body_password := body_password req;
     body_refreshToken := body_refreshToken req;
     req_ip := req_ip req;
     req_userAgent := req_userAgent req;
     req_user := Some u |}.

(** A middleware ends the request with a response or calls [next()]. *)
Inductive MwResult : Type :=
| Responded (r : Response)
| Next (req : Request).

(** ** Storage calls that return or throw *)

Inductive Outcome (A : Type) : Type :=
| Ok (a : A) (st : Store)
| Throw (st : Store).
Arguments Ok {A} a st.
Arguments Throw {A} st.

Definition M (A : Type) : Type := Store -> Outcome A.

Definition ret {A : Type} (a : A) : M A := fun st => Ok a st.

Definition bind {A B : Type} (m : M A) (k : A -> M B) : M B :=
  fun st =>
    match m st with
    | Ok a st' => k a st'
    | Throw st' => Throw st'
    end.

Notation "x <- m ;; k" := (bind m (fun x => k))
  (at level 61, m at next level, right associativity).
Notation "m ;;; k" := (bind m (fun _ => k))
  (at level 61, right associativity).

(** [try { body } catch (error) { handler }], for a body that returns or
    responds in every branch. *)
Definition try_catch {A : Type} (body : M A) (handler : A) (st : Store)
  : A * Store :=
  match body st with
  | Ok a st' => (a, st')
  | Throw st' => (handler, st')
  end.

(** The statements [DatabaseStorage] sends for users, sessions and audit. *)
Inductive DbStmt : Type :=
| SelectUserById (id : string)
| SelectUserByEmail (email : string)
| UpdateUserLastLogin (id : string) (lastLogin : Time)
| InsertSession (row : Session)
| SelectActiveSession (token : string)
| UpdateSessionInactive (token : string)
| InsertAudit (log : InsertAuditLog).

(** [process.env], as far as [server/auth.ts] reads it. *)
Definition ProcessEnv : Type := string -> option string.

Definition JWT_SECRET (env : ProcessEnv) : string :=
  or_default (env "JWT_SECRET") "your-secret-key-change-in-production".

Definition JWT_REFRESH_SECRET (env : ProcessEnv) : string :=
  or_default (env "JWT_REFRESH_SECRET")
             "your-refresh-secret-key-change-in-production".

(** ** [generateTemporaryPassword] *)

(** A value of [Math.random()]: the double [mant / 2^expo], in [0, 1). *)
Record Unit01 : Type := mkUnit01 {
  mant : Z;
  expo : Z
}.

(** [x] is a double of [0, 1): at most 53 significant bits, and an
    exponent a double can have. *)
Definition is_double01 (x : Unit01) : bool :=
  (0 <=? mant x) && (mant x <? 2 ^ expo x) && (mant x <? 2 ^ 53)
  && (0 <=? expo x) && (expo x <=? 1074).

Definition digits36 : list ascii :=
  list_ascii_of_string "0123456789abcdefghijklmnopqrstuvwxyz".

Definition digit36 (d : Z) : ascii := nth (Z.to_nat d) digits36 "0"%char.

(** The base-36 digits of [m / 2^e] after the point.  The expansion is
    finite, since 2 divides 36: every step clears two binary places. *)
Fixpoint fraction36 (fuel : nat) (m e : Z) : string :=
  match fuel with
  | O => EmptyString
  | S fuel' =>
      if m =? 0 then EmptyString
      else String (digit36 (36 * m / 2 ^ e))
                  (fraction36 fuel' ((36 * m) mod 2 ^ e) e)
  end.

(** What is left of [m / 2^e] to print after [fuel] digits. *)
Fixpoint rest36 (fuel : nat) (m e : Z) : Z :=
  match fuel with
  | O => m
  | S fuel' =>
      if m =? 0 then 0 else rest36 fuel' ((36 * m) mod 2 ^ e) e
  end.

(** [x.toString(36)] for [x] in [0, 1), with the digits of the exact
    expansion: ["0"] for zero, else ["0."] and the digits.  (An engine may
    stop a long expansion once the digits printed identify the double; a
    short one, as for 1/2, is printed whole.) *)
Definition toString36 (x : Unit01) : string :=
  if mant x =? 0 then "0"
  else "0." ++ fraction36 (Z.to_nat (expo x)) (mant x) (expo x).

(** [Math.random().toString(36).slice(-8)], from the value drawn. *)
Definition generateTemporaryPassword (random : Unit01) : string :=
  slice_last 8 (toString36 random).

(** ** [client/src/lib/validators.ts] *)

Module Validators.

(** [\d]. *)
Definition is_digit (c : ascii) : bool :=
  let n := nat_of_ascii c in ((48 <=? n) && (n <=? 57))%nat.

(** [s.replace(/[^\d]/g, "")]. *)
Fixpoint only_digits (s : string) : string :=
  match s with
  | EmptyString => EmptyString
  | String c rest =>
      if is_digit c then String c (only_digits rest) else only_digits rest
  end.

(** The first [n] characters, and what follows them. *)
Fixpoint take (n : nat) (s : string) : string :=
  match n, s with
  | S n', String c rest => String c (take n' rest)
  | _, _ => EmptyString
  end.

Fixpoint drop (n : nat) (s : string) : string :=
  match n, s with
  | S n', String _ rest => drop n' rest
  | _, _ => s
  end.

(** [parseInt(s[i])] on a string of digits, for [i] below its length
    (beyond it the source has [NaN]; the length is tested first). *)
Definition digit_at (s : string) (i : nat) : Z :=
  match String.get i s with
  | Some c => Z.of_nat (nat_of_ascii c) - 48
  | None => 0
  end.

(** [/^(\d)\1{n}$/.test(s)]: a digit, then [n] times the same. *)
Definition repeated_digit (n : nat) (s : string) : bool :=
  match s with
  | EmptyString => false
  | String c rest =>
      is_digit c && (String.length rest =? n)%nat
      && forallb (Ascii.eqb c) (list_ascii_of_string rest)
  end.

(** [for (let i = 0; i < n; i++) sum += f(i)], from [sum = 0]. *)
Fixpoint sum_below (n : nat) (f : nat -> Z) : Z :=
  match n with
  | O => 0
  | S k => sum_below k f + f k
  end.

Definition isValidCPF (cpf : string) : bool :=
  let cpf := only_digits cpf in
  if negb (String.length cpf =? 11)%nat || repeated_digit 10 cpf then false
  else
    let sum := sum_below 9 (fun i => digit_at cpf i * (10 - Z.of_nat i)) in
    let digit1 := 11 - sum mod 11 in
    let digit1 := if digit1 >? 9 then 0 else digit1 in
    let sum := sum_below 10 (fun i => digit_at cpf i * (11 - Z.of_nat i)) in
    let digit2 := 11 - sum mod 11 in
    let digit2 := if digit2 >? 9 then 0 else digit2 in
    (digit_at cpf 9 =? digit1) && (digit_at cpf 10 =? digit2).

Definition weights1 : list Z := [5; 4; 3; 2; 9; 8; 7; 6; 5; 4; 3; 2].
Definition weights2 : list Z := [6; 5; 4; 3; 2; 9; 8; 7; 6; 5; 4; 3; 2].

Definition isValidCNPJ (cnpj : string) : bool :=
  let cnpj := only_digits cnpj in
  if negb (String.length cnpj =? 14)%nat || repeated_digit 13 cnpj then false
  else
    let sum := sum_below 12 (fun i => digit_at cnpj i * nth i weights1 0) in
    let digit1 := sum mod 11 in
    let digit1 := if digit1 <? 2 then 0 else 11 - digit1 in
    let sum := sum_below 13 (fun i => digit_at cnpj i * nth i weights2 0) in
    let digit2 := sum mod 11 in
    let digit2 := if digit2 <? 2 then 0 else 11 - digit2 in
    (digit_at cnpj 12 =? digit1) && (digit_at cnpj 13 =? digit2).

Definition isValidDocument (document type : string) : bool :=
  if (type =? "INDIVIDUAL")%string then isValidCPF document
  else isValidCNPJ document.

(** The formatters replace the first match of a pattern of digit groups.
    In a string of digits the pattern matches at the start when the
    string has as many digits as the groups ask for, and nowhere if it
    has fewer; what follows the match is kept. *)
Definition formatCPF (cpf : string) : string :=
  let cpf := only_digits cpf in
  if (11 <=? String.length cpf)%nat then
    take 3 cpf ++ "." ++ take 3 (drop 3 cpf) ++ "." ++ take 3 (drop 6 cpf)
    ++ "-" ++ take 2 (drop 9 cpf) ++ drop 11 cpf
  else cpf.

Definition formatCNPJ (cnpj : string) : string :=
  let cnpj := only_digits cnpj in
  if (14 <=? String.length cnpj)%nat then
    take 2 cnpj ++ "." ++ take 3 (drop 2 cnpj) ++ "." ++ take 3 (drop 5 cnpj)
    ++ "/" ++ take 4 (drop 8 cnpj) ++ "-" ++ take 2 (drop 12 cnpj)
    ++ drop 14 cnpj
  else cnpj.

Definition formatDocument (document type : string) : string :=
  if (type =? "INDIVIDUAL")%string then formatCPF document
  else formatCNPJ document.

Definition formatPhone (phone : string) : string :=
  let phone := only_digits phone in
  if (String.length phone =? 10)%nat then
    "(" ++ take 2 phone ++ ") " ++ take 4 (drop 2 phone) ++ "-"
    ++ take 4 (drop 6 phone)
  else if (String.length phone =? 11)%nat then
    "(" ++ take 2 phone ++ ") " ++ take 5 (drop 2 phone) ++ "-"
    ++ take 4 (drop 7 phone)
  else phone.

Definition formatCEP (cep : string) : string :=
  let cep := only_digits cep in
  if (8 <=? String.length cep)%nat then
    take 5 cep ++ "-" ++ take 3 (drop 5 cep) ++ drop 8 cep
  else cep.

End Validators.

(** ** User administration: rows to insert and to patch *)

(** [InsertUser]: the columns a caller gives; the optional ones take
    their column default when left out. *)
Record InsertUser : Type := mkInsertUser {
  new_email : string;
  new_firstName : string;
  new_lastName : string;
  new_password : string;
  new_profile : string;
  new_isActive : option bool;
  new_temporaryPassword : option bool;
  new_mustChangePassword : option bool;
  new_createdBy : option string;
  new_updatedBy : option string
}.

(** [Partial<InsertUser>]: [None] is a key left out. *)
Record UserPatch : Type := mkUserPatch {
  patch_email : option string;
  patch_firstName : option string;
  patch_lastName : option string;
  patch_password : option string;
  patch_profile : option string;
  patch_isActive : option bool;
  patch_temporaryPassword : option bool;
  patch_mustChangePassword : option bool;
  patch_createdBy : option (option string);
  patch_updatedBy : option (option string)
}.

(** [{ ...row, ...patch }] on one column. *)
Definition patched {A : Type} (p : option A) (old : A) : A :=
  match p with
  | Some v => v
  | None => old
  end.

(** The statements [DatabaseStorage] sends to write [users] rows. *)
Inductive UsersStmt : Type :=
| InsertUserRow (user : InsertUser)
| UpdateUserRow (id : string) (patch : UserPatch)
| DeactivateUserRow (id : string).

(** The request with another [Authorization] header. *)
Definition with_authorization (header : string) (req : Request) : Request :=
  {| headers_authorization := Some header;
     body_email := body_email req;
     body_password := body_password req;
     body_refreshToken := body_refreshToken req;
     req_ip := req_ip req;
     req_userAgent := req_userAgent req;
     req_user := req_user req |}.

(** ** Stand-ins for the libraries, for concrete runs *)

Module Sample.

Definition admin_payload : TokenPayload :=
  {| tp_userId := "u-1";
     tp_email := "admin@mecone.com";
     tp_profile := "ADMINISTRATOR" |}.

(** A signature scheme reduced to its key: the token is the secret that
    signed it, and it verifies under that secret only. *)
Definition sign (payload : TokenPayload) (secret expiresIn : string)
           (now : Time) : string :=
  secret.

Definition verify (token secret : string) (now : Time)
  : option TokenPayload :=
  if (token =? secret)%string then Some admin_payload else None.

(** A hash that keeps the password readable. *)
Definition compare (password hash : string) : bool :=
  (hash =? "$2b$12$" ++ password)%string.

Definition never_throws (stmt : DbStmt) (st : Store) : bool := false.

(** The driver loses the audit table: every insert into it throws. *)
Definition audit_down (stmt : DbStmt) (st : Store) : bool :=
  match stmt with
  | InsertAudit _ => true
  | _ => false
  end.


Definition no_env : ProcessEnv := fun _ => None.

Definition admin : User :=
  {| user_id := "u-1";
     user_email := "admin@mecone.com";
     user_firstName := "Administrator";
     user_lastName := "System";
     user_password := "$2b$12$admin123";
     user_profile := "ADMINISTRATOR";
     user_isActive := true;
     user_temporaryPassword := false;
     user_mustChangePassword := true;
     user_lastLogin := None;
     user_createdAt := 0;
     user_updatedAt := 0;
     user_createdBy := None;
     user_updatedBy := None |}.

Definition seeded : Store :=
  {| users := [admin]; userSessions := []; auditLogs := [] |}.

Definition login_request (email password : string) : Request :=
  {| headers_authorization := None;
     body_email := Some email;
     body_password := Some password;
     body_refreshToken := None;
     req_ip := Some "127.0.0.1";
     req_userAgent := Some "curl/8.5.0";
     req_user := None |}.

(** The tokens [sign] makes under the secrets of an empty environment. *)
Definition access_token : string := "your-secret-key-change-in-production".
Definition refresh_token : string :=
  "your-refresh-secret-key-change-in-production".

(** The store after the administrator has logged in at [1000]. *)
Definition admin_session : Session :=
  {| sess_userId := "u-1";
     sess_token := refresh_token;
     sess_isActive := true;
     sess_expiresAt := 604801000;
     sess_ipAddress := Some "127.0.0.1";
     sess_userAgent := Some "curl/8.5.0";
     sess_createdAt := 1000;
     sess_lastUsed := 1000 |}.

Definition logged_in : Store :=
  {| users := [admin]; userSessions := [admin_session]; auditLogs := [] |}.

(** The administrator's row after a change of profile and email. *)
Definition demoted_admin : User :=
  {| user_id := "u-1";
     user_email := "former-admin@mecone.com";
     user_firstName := "Administrator";
     user_lastName := "System";
     user_password := "$2b$12$admin123";
     user_profile := "COORDINATOR";
     user_isActive := true;
     user_temporaryPassword := false;
     user_mustChangePassword := true;
     user_lastLogin := None;
     user_createdAt := 0;
     user_updatedAt := 5000;
     user_createdBy := None;
     user_updatedBy := None |}.

Definition demoted : Store :=
  {| users := [demoted_admin]; userSessions := []; auditLogs := [] |}.

Definition bearer_request (token : string) : Request :=
  {| headers_authorization := Some ("Bearer " ++ token);
     body_email := None;
     body_password := None;
     body_refreshToken := None;
     req_ip := Some "127.0.0.1";
     req_userAgent := Some "curl/8.5.0";
     req_user := None |}.

Definition refresh_request (token : string) : Request :=
  {| headers_authorization := None;
     body_email := None;
     body_password := None;
     body_refreshToken := Some token;
     req_ip := Some "127.0.0.1";
     req_userAgent := Some "curl/8.5.0";
     req_user := None |}.

(** A logout: the access token in the header, the refresh token in the
    body. *)
Definition logout_request (access refresh_ : string) : Request :=
  {| headers_authorization := Some ("Bearer " ++ access);
     body_email := None;
     body_password := None;
     body_refreshToken := Some refresh_;
     req_ip := Some "127.0.0.1";
     req_userAgent := Some "curl/8.5.0";
     req_user := None |}.

Definition with_role (profile : string) : Request :=
  {| headers_authorization := None;
     body_email := None;
     body_password := None;
     body_refreshToken := None;
     req_ip := None;
     req_userAgent := None;
     req_user := Some {| au_id := "u-2";
                         au_email := "someone@mecone.com";
                         au_profile := profile |} |}.

(** The double 0.5. *)
Definition one_half : Unit01 := {| mant := 1; expo := 1 |}.

(** A hash that [compare] accepts for its password. *)
Definition hash (password : string) : string := "$2b$12$" ++ password.


Definition users_quiet (stmt : UsersStmt) (st : Store) : bool := false.


(** The driver is down: every statement throws. *)
Definition db_down (stmt : DbStmt) (st : Store) : bool := true.


(** [logged_in] after the session has been deactivated. *)
Definition revoked_session : Session :=
  {| sess_userId := "u-1";
     sess_token := refresh_token;
     sess_isActive := false;
     sess_expiresAt := 604801000;
     sess_ipAddress := Some "127.0.0.1";
     sess_userAgent := Some "curl/8.5.0";
     sess_createdAt := 1000;
     sess_lastUsed := 1000 |}.

Definition logged_out : Store :=
  {| users := [admin];
     userSessions := [revoked_session];
     auditLogs := [] |}.

(** [seeded] after the administrator has been deactivated at [3000]. *)
Definition former_admin : User :=
  {| user_id := "u-1";
     user_email := "admin@mecone.com";
     user_firstName := "Administrator";
     user_lastName := "System";
     user_password := "$2b$12$admin123";
     user_profile := "ADMINISTRATOR";
     user_isActive := false;
     user_temporaryPassword := false;
     user_mustChangePassword := true;
     user_lastLogin := None;
     user_createdAt := 0;
     user_updatedAt := 3000;
     user_createdBy := None;
     user_updatedBy := None |}.

Definition closed_account : Store :=
  {| users := [former_admin]; userSessions := []; auditLogs := [] |}.

Definition request_base : Request :=
  {| headers_authorization := None;
     body_email := None;
     body_password := None;
     body_refreshToken := None;
     req_ip := Some "127.0.0.1";
     req_userAgent := Some "curl/8.5.0";
     req_user := None |}.

Definition forgot_request (email : string) : Request :=
  {| headers_authorization := None;
     body_email := Some email;
     body_password := None;
     body_refreshToken := None;
     req_ip := Some "127.0.0.1";
     req_userAgent := Some "curl/8.5.0";
     req_user := None |}.

End Sample.

(** ** The server *)

Section Server.

(** [jwt.sign(payload, secret, { expiresIn })] at a clock reading, and
    [jwt.verify(token, secret)] at a clock reading, [None] when it throws. *)
Variable jwt_sign : TokenPayload -> string -> string -> Time -> string.
Variable jwt_verify : string -> string -> Time -> option TokenPayload.

(** [bcrypt.compare(password, hash)]. *)
Variable bcrypt_compare : string -> string -> bool.

(** Whether the database driver throws on a statement in a database
    state (connection lost, constraint of a column violated, ...). *)
Variable db_throws : DbStmt -> Store -> bool.

Variable env : ProcessEnv.

(** *** [server/storage.ts] *)

Definition throw {A : Type} : M A := fun st => Throw st.

(** Run a statement: throw when the driver does, else read or write. *)
Definition db {A : Type} (stmt : DbStmt) (run : Store -> A * Store) : M A :=
  fun st =>
    if db_throws stmt st then Throw st
    else let (a, st') := run st in Ok a st'.

Definition getUser (id : string) : M (option User) :=
  db (SelectUserById id)
     (fun st =>
        (hd_error (filter (fun u => (user_id u =? id)%string) (users st)),
         st)).

Definition getUserByEmail (email : string) : M (option User) :=
  db (SelectUserByEmail email)
     (fun st =>
        (hd_error
           (filter (fun u => (user_email u =? email)%string) (users st)),
         st)).

Definition set_lastLogin (lastLogin now : Time) (u : User) : User :=
  {| user_id := user_id u;
     user_email := user_email u;
     user_firstName := user_firstName u;
     user_lastName := user_lastName u;
     user_password := user_password u;
     user_profile := user_profile u;
     user_isActive := user_isActive u;
     user_temporaryPassword := user_temporaryPassword u;
     user_mustChangePassword := user_mustChangePassword u;
     user_lastLogin := Some lastLogin;
     user_createdAt := user_createdAt u;
     user_updatedAt := now;
     user_createdBy := user_createdBy u;
     user_updatedBy := user_updatedBy u |}.

Definition updateUserLastLogin (id : string) (lastLogin now : Time)
  : M unit :=
  db (UpdateUserLastLogin id lastLogin)
     (fun st =>
        (tt,
         {| users :=
              map (fun u => if (user_id u =? id)%string
                            then set_lastLogin lastLogin now u else u)
                  (users st);
            userSessions := userSessions st;
            auditLogs := auditLogs st |})).

(** The row [createSession] inserts; [isActive], [createdAt] and
    [lastUsed] take their column defaults. *)
Definition new_session (userId token : string) (expiresAt : Time)
           (ipAddress userAgent : option string) (now : Time) : Session :=
  {| sess_userId := userId;
     sess_token := token;
     sess_isActive := true;
     sess_expiresAt := expiresAt;
     sess_ipAddress := ipAddress;
     sess_userAgent := userAgent;
     sess_createdAt := now;
     sess_lastUsed := now |}.

(** [token] is a [unique()] column: inserting a token that is already
    stored throws. *)
Definition createSession (userId token : string) (expiresAt : Time)
           (ipAddress userAgent : option string) (now : Time) : M unit :=
  let row := new_session userId token expiresAt ipAddress userAgent now in
  fun st =>
    if includes (map sess_token (userSessions st)) token then Throw st
    else db (InsertSession row)
            (fun st =>
               (tt,
                {| users := users st;
                   userSessions := userSessions st ++ [row];
                   auditLogs := auditLogs st |})) st.

(** [and(eq(userSessions.token, token), eq(userSessions.isActive, true))]. *)
Definition active_with (token : string) (s : Session) : bool :=
  (sess_token s =? token)%string && Bool.eqb (sess_isActive s) true.

Definition getActiveSession (token : string) : M (option Session) :=
  db (SelectActiveSession token)
     (fun st =>
        (hd_error (filter (active_with token) (userSessions st)), st)).

Definition set_inactive (s : Session) : Session :=
  {| sess_userId := sess_userId s;
     sess_token := sess_token s;
     sess_isActive := false;
     sess_expiresAt := sess_expiresAt s;
     sess_ipAddress := sess_ipAddress s;
     sess_userAgent := sess_userAgent s;
     sess_createdAt := sess_createdAt s;
     sess_lastUsed := sess_lastUsed s |}.

Definition deactivateSession (token : string) : M unit :=
  db (UpdateSessionInactive token)
     (fun st =>
        (tt,
         {| users := users st;
            userSessions :=
              map (fun s => if (sess_token s =? token)%string
                            then set_inactive s else s)
                  (userSessions st);
            auditLogs := auditLogs st |})).

Definition createAuditLog (log : InsertAuditLog) (now : Time) : M unit :=
  db (InsertAudit log)
     (fun st =>
        (tt,
         {| users := users st;
            userSessions := userSessions st;
            auditLogs :=
              auditLogs st
              ++ [{| audit_entry := log; audit_createdAt := now |}] |})).

(** The audit rows the core writes: actor and record are the same user,
    the table is [users], no snapshots. *)
Definition user_event (action userId : string) (req : Request)
  : InsertAuditLog :=
  {| log_userId := Some userId;
     log_action := action;
     log_table := "users";
     log_recordId := Some userId;
     log_oldValues := None;
     log_newValues := None;
     log_ipAddress := req_ip req;
     log_userAgent := req_userAgent req |}.

(** *** [server/auth.ts] *)

Record Tokens : Type := mkTokens {
  accessToken : string;
  refreshToken : string
}.

Definition generateTokens (payload : TokenPayload) (now : Time) : Tokens :=
  {| accessToken := jwt_sign payload (JWT_SECRET env) "15m" now;
     refreshToken := jwt_sign payload (JWT_REFRESH_SECRET env) "7d" now |}.

(** [null] is [None]. *)
Definition verifyToken (token : string) (now : Time)
  : option TokenPayload :=
  jwt_verify token (JWT_SECRET env) now.

Definition verifyRefreshToken (token : string) (now : Time)
  : option TokenPayload :=
  jwt_verify token (JWT_REFRESH_SECRET env) now.

Definition comparePassword (password hash : string) : bool :=
  bcrypt_compare password hash.

Definition authenticate_body (now : Time) (req : Request) : M MwResult :=
  match headers_authorization req with
  | None | Some "" =>
      ret (Responded (message 401 "No authorization header provided"))
  | Some authHeader =>
      match nth_error (split " " authHeader) 1 with
      | None | Some "" => ret (Responded (message 401 "No token provided"))
      | Some token =>
          match verifyToken token now with
          | None => ret (Responded (message 401 "Invalid or expired token"))
          | Some payload =>
              user <- getUser (tp_userId payload) ;;
              if match user with
                 | None => true
                 | Some u => negb (user_isActive u)
                 end
              then ret (Responded (message 401 "User not found or inactive"))
              else
                let req' :=
                  set_user req {| au_id := tp_userId payload;
                                  au_email := tp_email payload;
                                  au_profile := tp_profile payload |} in
                createAuditLog
                  (user_event "API_ACCESS" (tp_userId payload) req) now ;;;
                ret (Next req')
          end
      end
  end.

Definition authenticate (now : Time) (req : Request) (st : Store)
  : MwResult * Store :=
  try_catch (authenticate_body now req)
            (Responded (message 401 "Authentication failed")) st.

Definition authorize (profiles : list string) (req : Request) : MwResult :=
  match req_user req with
  | None => Responded (message 401 "Not authenticated")
  | Some u =>
      if negb (includes profiles (au_profile u)) then
        Responded (message 403 "Insufficient permissions")
      else Next req
  end.


(** *** [server/routes.ts] *)

(** The [user] object of the login response. *)
Definition user_projection (user : User) : Json :=
  JObj [("id", JStr (user_id user));
        ("email", JStr (user_email user));
        ("firstName", JStr (user_firstName user));
        ("lastName", JStr (user_lastName user));
        ("profile", JStr (user_profile user));
        ("mustChangePassword", JBool (user_mustChangePassword user))].

Definition payload_of (user : User) : TokenPayload :=
  {| tp_userId := user_id user;
     tp_email := user_email user;
     tp_profile := user_profile user |}.

Definition internal_error : Response := message 500 "Internal server error".

Definition login_body (now : Time) (req : Request) : M Response :=
  match body_email req, body_password req with
  | Some email, Some password =>
      if (email =? "")%string || (password =? "")%string then
        ret (message 400 "Email and password are required")
      else
        user <- getUserByEmail email ;;
        match user with
        | None => ret (message 401 "Invalid credentials")
        | Some user =>
            if negb (user_isActive user) then
              ret (message 401 "Invalid credentials")
            else if negb (comparePassword password (user_password user)) then
              ret (message 401 "Invalid credentials")
            else
              let tokens := generateTokens (payload_of user) now in
              updateUserLastLogin (user_id user) now now ;;;
              let expiresAt := now + 7 * 24 * 60 * 60 * 1000 in
              createSession (user_id user) (refreshToken tokens) expiresAt
                            (req_ip req) (req_userAgent req) now ;;;
              createAuditLog (user_event "LOGIN" (user_id user) req) now ;;;
              ret (json (JObj [("accessToken", JStr (accessToken tokens));
                               ("refreshToken", JStr (refreshToken tokens));
                               ("user", user_projection user)]))
        end
  | _, _ => ret (message 400 "Email and password are required")
  end.

Definition login (now : Time) (req : Request) (st : Store)
  : Response * Store :=
  try_catch (login_body now req) internal_error st.

Definition refresh_body (now : Time) (req : Request) : M Response :=
  match body_refreshToken req with
  | None | Some "" => ret (message 400 "Refresh token is required")
  | Some refreshToken_ =>
      match verifyRefreshToken refreshToken_ now with
      | None => ret (message 401 "Invalid refresh token")
      | Some payload =>
          session <- getActiveSession refreshToken_ ;;
          match session with
          | None => ret (message 401 "Session not found or expired")
          | Some _ =>
              user <- getUser (tp_userId payload) ;;
              match user with
              | None => ret (message 401 "User not found or inactive")
              | Some user =>
                  if negb (user_isActive user) then
                    ret (message 401 "User not found or inactive")
                  else
                    let tokens := generateTokens (payload_of user) now in
                    ret (json (JObj [("accessToken",
                                      JStr (accessToken tokens));
                                     ("refreshToken",
                                      JStr (refreshToken tokens))]))
              end
          end
      end
  end.

Definition refresh (now : Time) (req : Request) (st : Store)
  : Response * Store :=
  try_catch (refresh_body now req) internal_error st.

(** The handler behind [authenticate]; [req.user!.id] throws a
    [TypeError] when no identity is attached. *)
Definition logout_revoke (req : Request) : M unit :=
  match body_refreshToken req with
  | None | Some "" => ret tt
  | Some refreshToken_ => deactivateSession refreshToken_
  end.

Definition logout_body (now : Time) (req : Request) : M Response :=
  logout_revoke req ;;;
  match req_user req with
  | None => throw
  | Some u =>
      createAuditLog (user_event "LOGOUT" (au_id u) req) now ;;;
      ret (message 200 "Logged out successfully")
  end.

Definition logout_handler (now : Time) (req : Request) (st : Store)
  : Response * Store :=
  try_catch (logout_body now req) internal_error st.

(** [app.post(path, mw, handler)]: the handler runs when the middleware
    calls [next()]. *)
Definition guarded (mw : Request -> Store -> MwResult * Store)
           (handler : Request -> Store -> Response * Store)
           (req : Request) (st : Store) : Response * Store :=
  match mw req st with
  | (Responded r, st') => (r, st')
  | (Next req', st') => handler req' st'
  end.

Definition logout (now : Time) : Request -> Store -> Response * Store :=
  guarded (authenticate now) (logout_handler now).

(** A synchronous middleware in the chain: it does not touch the store. *)
Definition pure_mw (mw : Request -> MwResult) (req : Request) (st : Store)
  : MwResult * Store :=
  (mw req, st).


(** [app.get(path, mw1, mw2, ...)]: [mw2] runs when [mw1] calls [next()]. *)
Definition chain (mw1 mw2 : Request -> Store -> MwResult * Store)
           (req : Request) (st : Store) : MwResult * Store :=
  match mw1 req st with
  | (Responded r, st') => (Responded r, st')
  | (Next req', st') => mw2 req' st'
  end.

(** *** The cases the properties distinguish *)

(** Credential verification fails at login: the email is unknown, the
    user is inactive, or the password does not match. *)
Inductive CredentialFailure (email password : string) (st : Store) : Prop :=
| UnknownEmail :
    getUserByEmail email st = Ok None st ->
    CredentialFailure email password st
| InactiveUser (u : User) :
    getUserByEmail email st = Ok (Some u) st ->
    user_isActive u = false ->
    CredentialFailure email password st
| WrongPassword (u : User) :
    getUserByEmail email st = Ok (Some u) st ->
    user_isActive u = true ->
    comparePassword password (user_password u) = false ->
    CredentialFailure email password st.

Definition identity_of (payload : TokenPayload) : AuthUser :=
  {| au_id := tp_userId payload;
     au_email := tp_email payload;
     au_profile := tp_profile payload |}.

(** The stages of the Authentication Gate, each with what the earlier
    stages have established. *)
Inductive GateCase (now : Time) (req : Request) (st : Store)
  : MwResult -> Store -> Prop :=
| NoHeader :
    falsy (headers_authorization req) = true ->
    GateCase now req st
      (Responded (message 401 "No authorization header provided")) st
| NoToken (authHeader : string) :
    headers_authorization req = Some authHeader ->
    authHeader <> "" ->
    falsy (nth_error (split " " authHeader) 1) = true ->
    GateCase now req st (Responded (message 401 "No token provided")) st
| InvalidToken (authHeader token : string) :
    headers_authorization req = Some authHeader ->
    authHeader <> "" ->
    nth_error (split " " authHeader) 1 = Some token ->
    token <> "" ->
    verifyToken token now = None ->
    GateCase now req st
      (Responded (message 401 "Invalid or expired token")) st
| UserNotFound (authHeader token : string) (payload : TokenPayload) :
    headers_authorization req = Some authHeader ->
    authHeader <> "" ->
    nth_error (split " " authHeader) 1 = Some token ->
    token <> "" ->
    verifyToken token now = Some payload ->
    getUser (tp_userId payload) st = Ok None st ->
    GateCase now req st
      (Responded (message 401 "User not found or inactive")) st
| UserInactive (authHeader token : string) (payload : TokenPayload)
               (u : User) :
    headers_authorization req = Some authHeader ->
    authHeader <> "" ->
    nth_error (split " " authHeader) 1 = Some token ->
    token <> "" ->
    verifyToken token now = Some payload ->
    getUser (tp_userId payload) st = Ok (Some u) st ->
    user_isActive u = false ->
    GateCase now req st
      (Responded (message 401 "User not found or inactive")) st
| Authenticated (authHeader token : string) (payload : TokenPayload)
                (u : User) (st' : Store) :
    headers_authorization req = Some authHeader ->
    authHeader <> "" ->
    nth_error (split " " authHeader) 1 = Some token ->
    token <> "" ->
    verifyToken token now = Some payload ->
    getUser (tp_userId payload) st = Ok (Some u) st ->
    user_isActive u = true ->
    createAuditLog (user_event "API_ACCESS" (tp_userId payload) req) now st
    = Ok tt st' ->
    GateCase now req st (Next (set_user req (identity_of payload))) st'.

(** Two databases hold the same accounts, row by row, up to everything
    but the identifier and the active flag. *)
Definition same_accounts (st1 st2 : Store) : Prop :=
  Forall2 (fun u1 u2 => user_id u1 = user_id u2
                        /\ user_isActive u1 = user_isActive u2)
          (users st1) (users st2).

(** The same database with other expiry dates on its sessions. *)
Definition with_expiresAt (expiresAt : Time) (s : Session) : Session :=
  {| sess_userId := sess_userId s;
     sess_token := sess_token s;
     sess_isActive := sess_isActive s;
     sess_expiresAt := expiresAt;
     sess_ipAddress := sess_ipAddress s;
     sess_userAgent := sess_userAgent s;
     sess_createdAt := sess_createdAt s;
     sess_lastUsed := sess_lastUsed s |}.

Definition reschedule (f : Session -> Time) (st : Store) : Store :=
  {| users := users st;
     userSessions := map (fun s => with_expiresAt (f s) s) (userSessions st);
     auditLogs := auditLogs st |}.

(** What [deactivateSession(token)] does to one row. *)
Definition revoke_row (token : string) (s : Session) : Session :=
  if (sess_token s =? token)%string then set_inactive s else s.

(** *** User administration and password reset *)

(** [bcrypt.hash(password, 12)], with the salt it draws. *)
Variable bcrypt_hash : string -> string.

(** [gen_random_uuid()], the default of the [id] column. *)
Variable gen_random_uuid : Store -> string.

(** Whether the driver throws on a write to [users]. *)
Variable users_throws : UsersStmt -> Store -> bool.

Definition users_db {A : Type} (stmt : UsersStmt) (run : Store -> A * Store)
  : M A :=
  fun st =>
    if users_throws stmt st then Throw st
    else let (a, st') := run st in Ok a st'.

Definition hashPassword (password : string) : string :=
  bcrypt_hash password.

(** The row [createUser] inserts, with the defaults of [shared/schema.ts]. *)
Definition new_user (id : string) (user : InsertUser) (now : Time) : User :=
  {| user_id := id;
     user_email := new_email user;
     user_firstName := new_firstName user;
     user_lastName := new_lastName user;
     user_password := new_password user;
     user_profile := new_profile user;
     user_isActive := patched (new_isActive user) true;
     user_temporaryPassword := patched (new_temporaryPassword user) false;
     user_mustChangePassword := patched (new_mustChangePassword user) true;
     user_lastLogin := None;
     user_createdAt := now;
     user_updatedAt := now;
     user_createdBy := new_createdBy user;
     user_updatedBy := new_updatedBy user |}.

Definition createUser (user : InsertUser) (now : Time) : M User :=
  users_db (InsertUserRow user)
           (fun st =>
              let row := new_user (gen_random_uuid st) user now in
              (row,
               {| users := users st ++ [row];
                  userSessions := userSessions st;
                  auditLogs := auditLogs st |})).

(** [.set({ ...userData, updatedAt: new Date() })] on one row. *)
Definition apply_patch (patch : UserPatch) (now : Time) (u : User) : User :=
  {| user_id := user_id u;
     user_email := patched (patch_email patch) (user_email u);
     user_firstName := patched (patch_firstName patch) (user_firstName u);
     user_lastName := patched (patch_lastName patch) (user_lastName u);
     user_password := patched (patch_password patch) (user_password u);
     user_profile := patched (patch_profile patch) (user_profile u);
     user_isActive := patched (patch_isActive patch) (user_isActive u);
     user_temporaryPassword :=
       patched (patch_temporaryPassword patch) (user_temporaryPassword u);
     user_mustChangePassword :=
       patched (patch_mustChangePassword patch) (user_mustChangePassword u);
     user_lastLogin := user_lastLogin u;
     user_createdAt := user_createdAt u;
     user_updatedAt := now;
     user_createdBy := patched (patch_createdBy patch) (user_createdBy u);
     user_updatedBy := patched (patch_updatedBy patch) (user_updatedBy u) |}.

(** The first of the rows [.returning()] gives back, if any. *)
Definition updateUser (id : string) (patch : UserPatch) (now : Time)
  : M (option User) :=
  users_db (UpdateUserRow id patch)
           (fun st =>
              let rows :=
                map (fun u => if (user_id u =? id)%string
                              then apply_patch patch now u else u)
                    (users st) in
              (hd_error (filter (fun u => (user_id u =? id)%string) rows),
               {| users := rows;
                  userSessions := userSessions st;
                  auditLogs := auditLogs st |})).

Definition set_inactive_user (now : Time) (u : User) : User :=
  {| user_id := user_id u;
     user_email := user_email u;
     user_firstName := user_firstName u;
     user_lastName := user_lastName u;
     user_password := user_password u;
     user_profile := user_profile u;
     user_isActive := false;
     user_temporaryPassword := user_temporaryPassword u;
     user_mustChangePassword := user_mustChangePassword u;
     user_lastLogin := user_lastLogin u;
     user_createdAt := user_createdAt u;
     user_updatedAt := now;
     user_createdBy := user_createdBy u;
     user_updatedBy := user_updatedBy u |}.

Definition deactivateUser (id : string) (now : Time) : M unit :=
  users_db (DeactivateUserRow id)
           (fun st =>
              (tt,
               {| users :=
                    map (fun u => if (user_id u =? id)%string
                                  then set_inactive_user now u else u)
                        (users st);
                  userSessions := userSessions st;
                  auditLogs := auditLogs st |})).

Definition admin_seed : InsertUser :=
  {| new_email := "admin@mecone.com";
     new_firstName := "Administrator";
     new_lastName := "System";
     new_password := hashPassword "admin123";
     new_profile := "ADMINISTRATOR";
     new_isActive := Some true;
     new_temporaryPassword := None;
     new_mustChangePassword := None;
     new_createdBy := None;
     new_updatedBy := None |}.

(** [eq(users.email, 'admin@mecone.com')]. *)
Definition is_admin_email (u : User) : bool :=
  (user_email u =? "admin@mecone.com")%string.

(** [seedAdminUser]: an error is logged and swallowed. *)
Definition seedAdminUser_body (now : Time) : M unit :=
  existingAdmin <- getUserByEmail "admin@mecone.com" ;;
  match existingAdmin with
  | Some _ => ret tt
  | None => createUser admin_seed now ;;; ret tt
  end.

Definition seedAdminUser (now : Time) (st : Store) : Store :=
  snd (try_catch (seedAdminUser_body now) tt st).

Definition recovery_sent : Response :=
  json (JObj [("message",
               JStr "If the email exists, a recovery link has been sent")]).

Definition reset_patch (hashedPassword : string) : UserPatch :=
  {| patch_email := None;
     patch_firstName := None;
     patch_lastName := None;
     patch_password := Some hashedPassword;
     patch_profile := None;
     patch_isActive := None;
     patch_temporaryPassword := Some true;
     patch_mustChangePassword := Some true;
     patch_createdBy := None;
     patch_updatedBy := None |}.


(** [POST /api/auth/forgot-password]; [random] is what [Math.random()]
    returns inside [generateTemporaryPassword]. *)
Definition forgot_password_body (random : Unit01) (now : Time)
           (req : Request) : M Response :=
  match body_email req with
  | None | Some "" => ret (message 400 "Email is required")
  | Some email =>
      user <- getUserByEmail email ;;
      match user with
      | None => ret recovery_sent
      | Some user =>
          let temporaryPassword := generateTemporaryPassword random in
          let hashedPassword := hashPassword temporaryPassword in
          updateUser (user_id user) (reset_patch hashedPassword) now ;;;
          createAuditLog (user_event "PASSWORD_RESET" (user_id user) req)
                         now ;;;
          ret recovery_sent
      end
  end.

Definition forgot_password (random : Unit01) (now : Time) (req : Request)
           (st : Store) : Response * Store :=
  try_catch (forgot_password_body random now req) internal_error st.

(** Every outcome of the Authentication Gate, with the responses, the
    attached identity and the audit row written out.  A storage call
    that throws is answered by the [catch]. *)
Inductive GateAnswer (now : Time) (req : Request) (st : Store)
  : MwResult -> Store -> Prop :=
| AnswerNoHeader :
    headers_authorization req = None
    \/ headers_authorization req = Some "" ->
    GateAnswer now req st
      (Responded
         {| status := 401;
            body := JObj [("message",
                           JStr "No authorization header provided")] |})
      st
| AnswerNoToken (authHeader : string) :
    headers_authorization req = Some authHeader ->
    authHeader <> "" ->
    nth_error (split " " authHeader) 1 = None
    \/ nth_error (split " " authHeader) 1 = Some "" ->
    GateAnswer now req st
      (Responded
         {| status := 401;
            body := JObj [("message", JStr "No token provided")] |})
      st
| AnswerInvalidToken (authHeader token : string) :
    headers_authorization req = Some authHeader ->
    authHeader <> "" ->
    nth_error (split " " authHeader) 1 = Some token ->
    token <> "" ->
    verifyToken token now = None ->
    GateAnswer now req st
      (Responded
         {| status := 401;
            body := JObj [("message", JStr "Invalid or expired token")] |})
      st
| AnswerLookupThrows (authHeader token : string) (payload : TokenPayload) :
    headers_authorization req = Some authHeader ->
    authHeader <> "" ->
    nth_error (split " " authHeader) 1 = Some token ->
    token <> "" ->
    verifyToken token now = Some payload ->
    db_throws (SelectUserById (tp_userId payload)) st = true ->
    GateAnswer now req st
      (Responded
         {| status := 401;
            body := JObj [("message", JStr "Authentication failed")] |})
      st
| AnswerUserNotFound (authHeader token : string) (payload : TokenPayload) :
    headers_authorization req = Some authHeader ->
    authHeader <> "" ->
    nth_error (split " " authHeader) 1 = Some token ->
    token <> "" ->
    verifyToken token now = Some payload ->
    db_throws (SelectUserById (tp_userId payload)) st = false ->
    hd_error (filter (fun u => (user_id u =? tp_userId payload)%string)
                     (users st)) = None ->
    GateAnswer now req st
      (Responded
         {| status := 401;
            body := JObj [("message",
                           JStr "User not found or inactive")] |})
      st
| AnswerUserInactive (authHeader token : string) (payload : TokenPayload)
                     (u : User) :
    headers_authorization req = Some authHeader ->
    authHeader <> "" ->
    nth_error (split " " authHeader) 1 = Some token ->
    token <> "" ->
    verifyToken token now = Some payload ->
    db_throws (SelectUserById (tp_userId payload)) st = false ->
    hd_error (filter (fun u => (user_id u =? tp_userId payload)%string)
                     (users st)) = Some u ->
    user_isActive u = false ->
    GateAnswer now req st
      (Responded
         {| status := 401;
            body := JObj [("message",
                           JStr "User not found or inactive")] |})
      st
| AnswerAuditThrows (authHeader token : string) (payload : TokenPayload)
                    (u : User) :
    headers_authorization req = Some authHeader ->
    authHeader <> "" ->
    nth_error (split " " authHeader) 1 = Some token ->
    token <> "" ->
    verifyToken token now = Some payload ->
    db_throws (SelectUserById (tp_userId payload)) st = false ->
    hd_error (filter (fun u => (user_id u =? tp_userId payload)%string)
                     (users st)) = Some u ->
    user_isActive u = true ->
    db_throws
      (InsertAudit
         {| log_userId := Some (tp_userId payload);
            log_action := "API_ACCESS";
            log_table := "users";
            log_recordId := Some (tp_userId payload);
            log_oldValues := None;
            log_newValues := None;
            log_ipAddress := req_ip req;
            log_userAgent := req_userAgent req |}) st = true ->
    GateAnswer now req st
      (Responded
         {| status := 401;
            body := JObj [("message", JStr "Authentication failed")] |})
      st
| AnswerProceed (authHeader token : string) (payload : TokenPayload)
                (u : User) :
    headers_authorization req = Some authHeader ->
    authHeader <> "" ->
    nth_error (split " " authHeader) 1 = Some token ->
    token <> "" ->
    verifyToken token now = Some payload ->
    db_throws (SelectUserById (tp_userId payload)) st = false ->
    hd_error (filter (fun u => (user_id u =? tp_userId payload)%string)
                     (users st)) = Some u ->
    user_isActive u = true ->
    db_throws
      (InsertAudit
         {| log_userId := Some (tp_userId payload);
            log_action := "API_ACCESS";
            log_table := "users";
            log_recordId := Some (tp_userId payload);
            log_oldValues := None;
            log_newValues := None;
            log_ipAddress := req_ip req;
            log_userAgent := req_userAgent req |}) st = false ->
    GateAnswer now req st
      (Next
         {| headers_authorization := headers_authorization req;
            body_email := body_email req;
            body_password := body_password req;
            body_refreshToken := body_refreshToken req;
            req_ip := req_ip req;
            req_userAgent := req_userAgent req;
            req_user := Some {| au_id := tp_userId payload;
                                au_email := tp_email payload;
                                au_profile := tp_profile payload |} |})
      {| users := users st;
         userSessions := userSessions st;
         auditLogs :=
           auditLogs st
           ++ [{| audit_entry :=
                    {| log_userId := Some (tp_userId payload);
                       log_action := "API_ACCESS";
                       log_table := "users";
                       log_recordId := Some (tp_userId payload);
                       log_oldValues := None;
                       log_newValues := None;
                       log_ipAddress := req_ip req;
                       log_userAgent := req_userAgent req |};
                  audit_createdAt := now |}] |}.

(** ** Properties *)

#[local] Set Default Proof Using "Type".

Lemma eqb_neq_false (s : string) : s <> "" -> (s =? "")%string = false.
Proof. intro H. now apply String.eqb_neq. Qed.

Lemma nonempty_cons (s : string) :
  s <> "" -> exists c rest, s = String c rest.
Proof. destruct s as [|c rest]; [congruence | eauto]. Qed.

(** C1. A login whose credential verification fails (unknown email,
    inactive user, or wrong password) answers 401 with the body
    [{"message":"Invalid credentials"}], the same in the three cases, and
    leaves the store as it was. *)
Theorem login_invalid_credentials_uniform
        (now : Time) (req : Request) (st : Store) (email password : string) :
  body_email req = Some email -> email <> "" ->
  body_password req = Some password -> password <> "" ->
  CredentialFailure email password st ->
  login now req st
  = ({| status := 401;
        body := JObj [("message", JStr "Invalid credentials")] |}, st).
Proof.
  intros He Hne Hp Hnp Hfail.
  unfold login, try_catch, login_body. rewrite He, Hp.
  rewrite (eqb_neq_false _ Hne), (eqb_neq_false _ Hnp). simpl.
  unfold bind.
  destruct Hfail as [Hq | u Hq Hact | u Hq Hact Hpw]; rewrite Hq.
  - reflexivity.
  - rewrite Hact. reflexivity.
  - rewrite Hact, Hpw. reflexivity.
Qed.

(** C2 (as the code has it). Every request gets exactly one of the
    outcomes of [GateAnswer], decided in this order: no header, 401 "No
    authorization header provided"; no token part, 401 "No token
    provided"; token refused by [verifyToken], 401 "Invalid or expired
    token"; user missing or inactive, 401 "User not found or inactive";
    else the identity of the payload is attached, one [API_ACCESS] row is
    appended and [next()] is called.  When the user lookup or the audit
    append throws, the answer is 401 "Authentication failed". *)
Theorem authenticate_outcomes
        (now : Time) (req : Request) (st : Store)
        (out : MwResult) (st' : Store) :
  authenticate now req st = (out, st') <-> GateAnswer now req st out st'.
Proof.
  unfold authenticate, try_catch, authenticate_body. split.
  - destruct (headers_authorization req) as [[|c h]|] eqn:Hh.
    1, 3: intros [= <- <-]; apply AnswerNoHeader; auto.
    destruct (nth_error (split " " (String c h)) 1) as [[|c' t]|] eqn:Ht.
    1, 3: intros [= <- <-];
      apply (AnswerNoToken _ _ _ (String c h)); auto; discriminate.
    destruct (verifyToken (String c' t) now) as [p|] eqn:Hv.
    2: { intros [= <- <-].
         apply (AnswerInvalidToken _ _ _ (String c h) (String c' t));
           auto; discriminate. }
    unfold bind, getUser, db.
    destruct (db_throws (SelectUserById (tp_userId p)) st) eqn:Hdb.
    { intros [= <- <-].
      apply (AnswerLookupThrows _ _ _ (String c h) (String c' t) p);
        auto; discriminate. }
    destruct (hd_error _) as [u|] eqn:Hu.
    2: { intros [= <- <-].
         apply (AnswerUserNotFound _ _ _ (String c h) (String c' t) p);
           auto; discriminate. }
    destruct (user_isActive u) eqn:Hact; cbv beta iota delta [negb].
    2: { intros [= <- <-].
         apply (AnswerUserInactive _ _ _ (String c h) (String c' t) p u);
           auto; discriminate. }
    unfold createAuditLog, user_event, db.
    destruct (db_throws (InsertAudit _) st) eqn:Hlog.
    + intros [= <- <-].
      apply (AnswerAuditThrows _ _ _ (String c h) (String c' t) p u);
        auto; discriminate.
    + intros [= <- <-].
      apply (AnswerProceed _ _ _ (String c h) (String c' t) p u);
        auto; discriminate.
  - intros Hcase.
    assert (Hrun : forall h t p,
               headers_authorization req = Some h -> h <> "" ->
               nth_error (split " " h) 1 = Some t -> t <> "" ->
               verifyToken t now = Some p ->
               forall k : TokenPayload -> M MwResult,
                 match headers_authorization req with
                 | None | Some "" =>
                     ret (Responded
                            (message 401 "No authorization header provided"))
                 | Some authHeader =>
                     match nth_error (split " " authHeader) 1 with
                     | None | Some "" =>
                         ret (Responded (message 401 "No token provided"))
                     | Some token =>
                         match verifyToken token now with
                         | None =>
                             ret (Responded
                                    (message 401 "Invalid or expired token"))
                         | Some payload => k payload
                         end
                     end
                 end = k p).
    { intros h t p Hh Hne Ht Hnt Hv k. rewrite Hh.
      destruct (nonempty_cons _ Hne) as (c & r & ->). rewrite Ht.
      destruct (nonempty_cons _ Hnt) as (c' & r' & ->). now rewrite Hv. }
    destruct Hcase as
      [ [Hh | Hh]
      | h Hh Hne [Ht | Ht]
      | h t Hh Hne Ht Hnt Hv
      | h t p Hh Hne Ht Hnt Hv Hdb
      | h t p Hh Hne Ht Hnt Hv Hdb Hu
      | h t p u Hh Hne Ht Hnt Hv Hdb Hu Hact
      | h t p u Hh Hne Ht Hnt Hv Hdb Hu Hact Hlog
      | h t p u Hh Hne Ht Hnt Hv Hdb Hu Hact Hlog ].
    + now rewrite Hh.
    + now rewrite Hh.
    + rewrite Hh. destruct (nonempty_cons _ Hne) as (c & r & ->).
      now rewrite Ht.
    + rewrite Hh. destruct (nonempty_cons _ Hne) as (c & r & ->).
      now rewrite Ht.
    + rewrite Hh. destruct (nonempty_cons _ Hne) as (c & r & ->).
      rewrite Ht. destruct (nonempty_cons _ Hnt) as (c' & r' & ->).
      now rewrite Hv.
    + rewrite (Hrun h t p Hh Hne Ht Hnt Hv).
      unfold bind, getUser, db. now rewrite Hdb.
    + rewrite (Hrun h t p Hh Hne Ht Hnt Hv).
      unfold bind, getUser, db. now rewrite Hdb, Hu.
    + rewrite (Hrun h t p Hh Hne Ht Hnt Hv).
      unfold bind, getUser, db. now rewrite Hdb, Hu, Hact.
    + rewrite (Hrun h t p Hh Hne Ht Hnt Hv).
      unfold bind, getUser, db. rewrite Hdb, Hu, Hact.
      cbv beta iota delta [negb].
      unfold createAuditLog, user_event, db. now rewrite Hlog.
    + rewrite (Hrun h t p Hh Hne Ht Hnt Hv).
      unfold bind, getUser, db. rewrite Hdb, Hu, Hact.
      cbv beta iota delta [negb].
      unfold createAuditLog, user_event, db. now rewrite Hlog.
Qed.

(** *** Token Service *)


(** C8 (as the code has it). A secret comes from its environment
    variable when that is set and not empty; when it is absent or empty
    the Token Service signs and verifies with the constant written in
    [server/auth.ts]. *)
Theorem secrets_fall_back_to_constants
        (payload : TokenPayload) (token : string) (now : Time) :
  (env "JWT_SECRET" = None \/ env "JWT_SECRET" = Some "" ->
   accessToken (generateTokens payload now)
   = jwt_sign payload "your-secret-key-change-in-production" "15m" now
   /\ verifyToken token now
      = jwt_verify token "your-secret-key-change-in-production" now)
  /\ (env "JWT_REFRESH_SECRET" = None \/ env "JWT_REFRESH_SECRET" = Some "" ->
      refreshToken (generateTokens payload now)
      = jwt_sign payload "your-refresh-secret-key-change-in-production"
                 "7d" now
      /\ verifyRefreshToken token now
         = jwt_verify token "your-refresh-secret-key-change-in-production"
                      now)
  /\ (forall s, env "JWT_SECRET" = Some s -> s <> "" ->
                accessToken (generateTokens payload now)
                = jwt_sign payload s "15m" now
                /\ verifyToken token now = jwt_verify token s now)
  /\ (forall s, env "JWT_REFRESH_SECRET" = Some s -> s <> "" ->
                refreshToken (generateTokens payload now)
                = jwt_sign payload s "7d" now
                /\ verifyRefreshToken token now = jwt_verify token s now).
Proof.
  unfold generateTokens, verifyToken, verifyRefreshToken,
    JWT_SECRET, JWT_REFRESH_SECRET, or_default; simpl.
  split; [| split; [| split]].
  - intros [H | H]; rewrite H; split; reflexivity.
  - intros [H | H]; rewrite H; split; reflexivity.
  - intros s H Hne. rewrite H, (eqb_neq_false _ Hne). split; reflexivity.
  - intros s H Hne. rewrite H, (eqb_neq_false _ Hne). split; reflexivity.
Qed.

(** *** Session Registry *)

Lemma hd_filter_In {A : Type} (f : A -> bool) (l : list A) (a : A) :
  hd_error (filter f l) = Some a -> In a l /\ f a = true.
Proof.
  intros H. assert (Hin : In a (filter f l)).
  { destruct (filter f l); simpl in H; [discriminate |].
    injection H as Heq. subst. now left. }
  now apply filter_In in Hin.
Qed.

Lemma eqb_true_r (b : bool) : Bool.eqb b true = b.
Proof. now destruct b. Qed.

Lemma active_with_spec (token : string) (s : Session) :
  active_with token s = true
  <-> sess_token s = token /\ sess_isActive s = true.
Proof.
  unfold active_with. rewrite andb_true_iff, String.eqb_eq, eqb_true_r.
  reflexivity.
Qed.

Lemma hd_filter_unique (token : string) (l : list Session) (s : Session) :
  NoDup (map sess_token l) ->
  In s l -> sess_token s = token -> sess_isActive s = true ->
  hd_error (filter (active_with token) l) = Some s.
Proof.
  intros Hnd Hin Htok Hact.
  induction l as [|a l IH]; simpl in *; [contradiction |].
  inversion Hnd as [|x xs Hnotin Hnd']; subst x xs.
  destruct Hin as [-> | Hin].
  - assert (Hs : active_with token s = true)
      by now apply active_with_spec.
    now rewrite Hs.
  - destruct (active_with token a) eqn:Ha.
    + apply active_with_spec in Ha as [Ha _].
      exfalso. apply Hnotin. rewrite Ha, <- Htok. now apply in_map.
    + now apply IH.
Qed.

Lemma getActiveSession_run (token : string) (st : Store) :
  db_throws (SelectActiveSession token) st = false ->
  getActiveSession token st
  = Ok (hd_error (filter (active_with token) (userSessions st))) st.
Proof. intros H. unfold getActiveSession, db. now rewrite H. Qed.

Lemma getActiveSession_store (token : string) (st st' : Store)
      (r : option Session) :
  getActiveSession token st = Ok r st' -> st' = st.
Proof.
  unfold getActiveSession, db.
  destruct (db_throws _ st); [discriminate |]. now intros [= _ <-].
Qed.

Lemma getUser_store (id : string) (st st' : Store) (r : option User) :
  getUser id st = Ok r st' -> st' = st.
Proof.
  unfold getUser, db.
  destruct (db_throws _ st); [discriminate |]. now intros [= _ <-].
Qed.

Lemma getUser_throw_store (id : string) (st st' : Store) :
  getUser id st = Throw st' -> st' = st.
Proof.
  unfold getUser, db.
  destruct (db_throws _ st); [| discriminate]. now intros [= <-].
Qed.

Lemma getActiveSession_throw_store (token : string) (st st' : Store) :
  getActiveSession token st = Throw st' -> st' = st.
Proof.
  unfold getActiveSession, db.
  destruct (db_throws _ st); [| discriminate]. now intros [= <-].
Qed.

Lemma createAuditLog_throw_store (log : InsertAuditLog) (now : Time)
      (st st' : Store) :
  createAuditLog log now st = Throw st' -> st' = st.
Proof.
  unfold createAuditLog, db.
  destruct (db_throws _ st); [| discriminate]. now intros [= <-].
Qed.

(** The stages are all there is, apart from the [catch] of the gate:
    a storage call that throws is answered 401 "Authentication failed". *)
Lemma authenticate_stages_exhaustive
      (now : Time) (req : Request) (st : Store)
      (out : MwResult) (st' : Store) :
  authenticate now req st = (out, st') ->
  GateCase now req st out st'
  \/ (out = Responded (message 401 "Authentication failed") /\ st' = st).
Proof.
  unfold authenticate, try_catch, authenticate_body.
  destruct (headers_authorization req) as [[|c h]|] eqn:Hh.
  1, 3: intros [= <- <-]; left; apply NoHeader; now rewrite Hh.
  destruct (nth_error (split " " (String c h)) 1) as [[|c' t]|] eqn:Ht.
  1, 3: intros [= <- <-]; left;
    apply (NoToken _ _ _ (String c h)); [assumption | discriminate |];
    now rewrite Ht.
  destruct (verifyToken (String c' t) now) as [p|] eqn:Hv.
  2: { intros [= <- <-]. left.
       apply (InvalidToken _ _ _ (String c h) (String c' t));
         try assumption; discriminate. }
  unfold bind.
  destruct (getUser (tp_userId p) st) as [[u|] st1|st1] eqn:Hu.
  - pose proof (getUser_store _ _ _ _ Hu); subst st1.
    destruct (user_isActive u) eqn:Hact; cbv beta iota delta [negb].
    + destruct (createAuditLog _ now st) as [[] st2|st2] eqn:Hlog.
      * intros [= <- <-]. left.
        apply (Authenticated _ _ _ (String c h) (String c' t) p u st2);
          try assumption; discriminate.
      * apply createAuditLog_throw_store in Hlog. subst st2.
        intros [= <- <-]. now right.
    + intros [= <- <-]. left.
      apply (UserInactive _ _ _ (String c h) (String c' t) p u);
        try assumption; discriminate.
  - pose proof (getUser_store _ _ _ _ Hu); subst st1.
    intros [= <- <-]. left.
    apply (UserNotFound _ _ _ (String c h) (String c' t) p);
      try assumption; discriminate.
  - apply getUser_throw_store in Hu. subst st1.
    intros [= <- <-]. now right.
Qed.

Lemma includes_In (xs : list string) (x : string) :
  includes xs x = true <-> In x xs.
Proof.
  induction xs as [|y ys IH]; simpl.
  - split; [discriminate | contradiction].
  - rewrite orb_true_iff, String.eqb_eq, IH. reflexivity.
Qed.

Lemma NoDup_snoc {A : Type} (l : list A) (a : A) :
  NoDup l -> ~ In a l -> NoDup (l ++ [a]).
Proof.
  induction 1 as [|x l Hx Hl IH]; simpl; intros Ha.
  - constructor; [intros [] | constructor].
  - constructor.
    + rewrite in_app_iff. simpl. intros [H | [H | []]]; [auto | subst; auto].
    + apply IH. auto.
Qed.

(** The unique token column stays unique under the writes of the
    Session Registry. *)
Lemma createSession_keeps_tokens_unique
      (userId token : string) (expiresAt : Time)
      (ipAddress userAgent : option string) (now : Time) (st st' : Store) :
  NoDup (map sess_token (userSessions st)) ->
  createSession userId token expiresAt ipAddress userAgent now st
  = Ok tt st' ->
  NoDup (map sess_token (userSessions st')).
Proof.
  intros Hnd. unfold createSession, db.
  destruct (includes (map sess_token (userSessions st)) token) eqn:Hin;
    [discriminate |].
  destruct (db_throws _ st); [discriminate |].
  intros [= <-]. simpl. rewrite map_app. simpl.
  apply NoDup_snoc; [assumption |].
  intros H. apply includes_In in H. congruence.
Qed.

Lemma deactivateSession_keeps_tokens (token : string) (st st' : Store) :
  deactivateSession token st = Ok tt st' ->
  map sess_token (userSessions st') = map sess_token (userSessions st).
Proof.
  unfold deactivateSession, db.
  destruct (db_throws _ st); [discriminate |].
  intros [= <-]. simpl. rewrite map_map. apply map_ext.
  intros s. now destruct (sess_token s =? token)%string.
Qed.

(** The refresh handler never writes. *)
Lemma refresh_store_unchanged (now : Time) (req : Request) (st : Store) :
  snd (refresh now req st) = st.
Proof.
  unfold refresh, try_catch, refresh_body.
  destruct (body_refreshToken req) as [[|c r]|]; try reflexivity.
  destruct (verifyRefreshToken (String c r) now) as [p|]; [| reflexivity].
  unfold bind.
  destruct (getActiveSession (String c r) st) as [[s|] st1|st1] eqn:Hs;
    try (apply getActiveSession_store in Hs);
    try (apply getActiveSession_throw_store in Hs); subst; try reflexivity.
  destruct (getUser (tp_userId p) st) as [[u|] st1|st1] eqn:Hu;
    try (apply getUser_store in Hu);
    try (apply getUser_throw_store in Hu); subst; try reflexivity.
  destruct (user_isActive u); reflexivity.
Qed.

(** C4. A refresh that succeeds answers with a new pair made from the
    stored user and leaves the store as it was: no session row is added
    for the new refresh token, and the presented token is still found by
    [getActiveSession] afterwards. *)
Theorem refresh_does_not_rotate (now : Time) (req : Request) (st : Store) :
  status (fst (refresh now req st)) = 200 ->
  snd (refresh now req st) = st
  /\ exists token payload session user,
      body_refreshToken req = Some token
      /\ verifyRefreshToken token now = Some payload
      /\ getUser (tp_userId payload) st = Ok (Some user) st
      /\ body (fst (refresh now req st))
         = JObj [("accessToken",
                  JStr (accessToken (generateTokens (payload_of user) now)));
                 ("refreshToken",
                  JStr (refreshToken
                          (generateTokens (payload_of user) now)))]
      /\ getActiveSession token (snd (refresh now req st))
         = Ok (Some session) (snd (refresh now req st)).
Proof.
  intros Hok. split; [apply refresh_store_unchanged |].
  rewrite refresh_store_unchanged.
  revert Hok. unfold refresh, try_catch, refresh_body.
  destruct (body_refreshToken req) as [[|c r]|]; try discriminate.
  destruct (verifyRefreshToken (String c r) now) as [p|] eqn:Hv;
    [| discriminate].
  unfold bind.
  destruct (getActiveSession (String c r) st) as [[s|] st1|st1] eqn:Hs;
    try discriminate.
  pose proof (getActiveSession_store _ _ _ _ Hs); subst st1.
  destruct (getUser (tp_userId p) st) as [[u|] st1|st1] eqn:Hu;
    try discriminate.
  pose proof (getUser_store _ _ _ _ Hu); subst st1.
  destruct (user_isActive u); [| discriminate].
  simpl. intros _.
  exists (String c r), p, s, u. repeat split; assumption.
Qed.


Lemma hd_error_map {A B : Type} (g : A -> B) (l : list A) :
  hd_error (map g l) = option_map g (hd_error l).
Proof. now destruct l. Qed.

Lemma filter_active_reschedule (token : string) (f : Session -> Time)
      (l : list Session) :
  filter (active_with token) (map (fun s => with_expiresAt (f s) s) l)
  = map (fun s => with_expiresAt (f s) s) (filter (active_with token) l).
Proof.
  induction l as [|a l IH]; simpl; [reflexivity |].
  change (active_with token (with_expiresAt (f a) a))
    with (active_with token a).
  destruct (active_with token a); simpl; now rewrite IH.
Qed.

Lemma refresh_reschedule (f : Session -> Time) (now : Time) (req : Request)
      (st : Store) :
  (forall stmt, db_throws stmt (reschedule f st) = db_throws stmt st) ->
  fst (refresh now req (reschedule f st)) = fst (refresh now req st).
Proof.
  intros Hdb. unfold refresh, try_catch, refresh_body.
  destruct (body_refreshToken req) as [[|c r]|]; try reflexivity.
  destruct (verifyRefreshToken (String c r) now) as [p|]; [| reflexivity].
  unfold bind, getActiveSession, getUser, db. rewrite !Hdb.
  destruct (db_throws (SelectActiveSession (String c r)) st);
    [reflexivity |].
  cbn [reschedule userSessions users]. rewrite filter_active_reschedule, hd_error_map.
  destruct (hd_error (filter (active_with (String c r)) (userSessions st)));
    simpl; [| reflexivity].
  rewrite Hdb.
  destruct (db_throws (SelectUserById (tp_userId p)) st); [reflexivity |].
  destruct (hd_error _) as [u|]; [| reflexivity].
  destruct (user_isActive u); reflexivity.
Qed.

(** C5. With the tokens of the table distinct (the column is unique),
    [getActiveSession] returns a session exactly when it is stored under
    that token with [isActive] true.  [expiresAt] plays no part: an
    active session that expired before [now] is returned, and the answer
    of the refresh handler is the same for any other expiry dates on the
    stored sessions. *)
Theorem getActiveSession_ignores_expiresAt (token : string) (st : Store) :
  db_throws (SelectActiveSession token) st = false ->
  NoDup (map sess_token (userSessions st)) ->
  (forall s,
      getActiveSession token st = Ok (Some s) st
      <-> In s (userSessions st)
          /\ sess_token s = token /\ sess_isActive s = true)
  /\ (forall s now,
         In s (userSessions st) ->
         sess_token s = token -> sess_isActive s = true ->
         sess_expiresAt s < now ->
         getActiveSession token st = Ok (Some s) st)
  /\ (forall f now req,
         (forall stmt, db_throws stmt (reschedule f st) = db_throws stmt st) ->
         fst (refresh now req (reschedule f st))
         = fst (refresh now req st)).
Proof.
  intros Hdb Huniq. rewrite (getActiveSession_run _ _ Hdb).
  split; [| split].
  - intros s. split.
    + intros [= H]. apply hd_filter_In in H as [Hin Hs].
      apply active_with_spec in Hs as [Htok Hact]. auto.
    + intros (Hin & Htok & Hact).
      now rewrite (hd_filter_unique token _ s Huniq Hin Htok Hact).
  - intros s now Hin Htok Hact _.
    now rewrite (hd_filter_unique token _ s Huniq Hin Htok Hact).
  - intros f now req. apply refresh_reschedule.
Qed.

(** *** Authorization Gate *)

(** C6. [authorize(profiles)] decides from the attached identity and the
    allow-set alone: no identity, 401 [{"message":"Not authenticated"}];
    a role outside the allow-set, 403
    [{"message":"Insufficient permissions"}]; else [next()] with the
    request as it came.  Two requests with the same identity get the same
    decision, and after [authenticate] it adds nothing to what
    [authenticate] wrote. *)
Theorem authorize_decisions (profiles : list string) (req : Request) :
  (req_user req = None ->
   authorize profiles req
   = Responded {| status := 401;
                  body := JObj [("message", JStr "Not authenticated")] |})
  /\ (forall u, req_user req = Some u -> ~ In (au_profile u) profiles ->
                authorize profiles req
                = Responded
                    {| status := 403;
                       body := JObj [("message",
                                      JStr "Insufficient permissions")] |})
  /\ (forall u, req_user req = Some u -> In (au_profile u) profiles ->
                authorize profiles req = Next req)
  /\ (forall req2,
         req_user req2 = req_user req ->
         match authorize profiles req, authorize profiles req2 with
         | Responded r, Responded r2 => r = r2
         | Next a, Next b => a = req /\ b = req2
         | _, _ => False
         end)
  /\ (forall now req0 st,
         snd (chain (authenticate now) (pure_mw (authorize profiles))
                    req0 st)
         = snd (authenticate now req0 st)).
Proof.
  unfold authorize. repeat apply conj.
  - intros ->. reflexivity.
  - intros u -> Hnot.
    destruct (includes profiles (au_profile u)) eqn:Hin; [| reflexivity].
    apply includes_In in Hin. contradiction.
  - intros u -> Hin. apply includes_In in Hin. now rewrite Hin.
  - intros req2 ->. destruct (req_user req) as [u|]; [| reflexivity].
    destruct (includes profiles (au_profile u)); simpl; auto.
  - intros now req0 st. unfold chain, pure_mw.
    destruct (authenticate now req0 st) as [[r|req'] st']; reflexivity.
Qed.

(** *** Audit failures in login and logout *)



(** *** Where the attached identity comes from *)

Lemma same_accounts_lookup (id : string) (l1 l2 : list User) :
  Forall2 (fun u1 u2 => user_id u1 = user_id u2
                        /\ user_isActive u1 = user_isActive u2) l1 l2 ->
  match hd_error (filter (fun u => (user_id u =? id)%string) l1),
        hd_error (filter (fun u => (user_id u =? id)%string) l2) with
  | Some u1, Some u2 => user_isActive u1 = user_isActive u2
  | None, None => True
  | _, _ => False
  end.
Proof.
  induction 1 as [|u1 u2 l1 l2 [Hid Hact] _ IH]; simpl; [exact I |].
  rewrite <- Hid. destruct (user_id u1 =? id)%string; simpl; assumption.
Qed.

Lemma authenticate_next_inv (now : Time) (req req' : Request)
      (st st' : Store) :
  authenticate now req st = (Next req', st') ->
  exists authHeader token payload,
    headers_authorization req = Some authHeader
    /\ nth_error (split " " authHeader) 1 = Some token
    /\ verifyToken token now = Some payload
    /\ req' = set_user req (identity_of payload).
Proof.
  unfold authenticate, try_catch, authenticate_body.
  destruct (headers_authorization req) as [[|c h]|]; try discriminate.
  destruct (nth_error (split " " (String c h)) 1) as [[|c' t]|] eqn:Ht;
    try discriminate.
  destruct (verifyToken (String c' t) now) as [p|] eqn:Hv;
    [| discriminate].
  unfold bind.
  destruct (getUser (tp_userId p) st) as [[u|] st1|st1]; try discriminate.
  destruct (user_isActive u); simpl; [| discriminate].
  destruct (createAuditLog _ now st1) as [[] st2|st2]; [| discriminate].
  intros [= <- _].
  exists (String c h), (String c' t), p. repeat split; assumption.
Qed.

Lemma authenticate_same_accounts (now : Time) (req : Request)
      (st1 st2 : Store) :
  same_accounts st1 st2 ->
  (forall stmt, db_throws stmt st1 = db_throws stmt st2) ->
  fst (authenticate now req st1) = fst (authenticate now req st2).
Proof.
  intros Hsame Hdb. unfold authenticate, try_catch, authenticate_body.
  destruct (headers_authorization req) as [[|c h]|]; try reflexivity.
  destruct (nth_error (split " " (String c h)) 1) as [[|c' t]|];
    try reflexivity.
  destruct (verifyToken (String c' t) now) as [p|]; [| reflexivity].
  unfold bind, getUser, createAuditLog, db. rewrite Hdb.
  destruct (db_throws (SelectUserById (tp_userId p)) st2); [reflexivity |].
  pose proof (same_accounts_lookup (tp_userId p) _ _ Hsame) as Hlook.
  destruct (hd_error (filter _ (users st1))) as [u1|],
           (hd_error (filter _ (users st2))) as [u2|];
    try contradiction; [| reflexivity].
  rewrite Hlook. destruct (user_isActive u2); simpl; [| reflexivity].
  rewrite Hdb. destruct (db_throws _ st2); reflexivity.
Qed.

(** C10. The identity [authenticate] attaches is made of the token's
    payload; of the stored user it reads that the row exists and is
    active.  So two databases whose accounts differ in profile, email or
    anything but identifier and active flag give one request with one
    token the same outcome of [authenticate], and the same decision of
    [authorize] after it. *)
Theorem identity_from_token_payload
        (now : Time) (req : Request) (st1 st2 : Store)
        (profiles : list string) :
  same_accounts st1 st2 ->
  (forall stmt, db_throws stmt st1 = db_throws stmt st2) ->
  fst (authenticate now req st1) = fst (authenticate now req st2)
  /\ fst (chain (authenticate now) (pure_mw (authorize profiles)) req st1)
     = fst (chain (authenticate now) (pure_mw (authorize profiles)) req st2)
  /\ (forall req' st',
         authenticate now req st1 = (Next req', st') ->
         exists authHeader token payload,
           headers_authorization req = Some authHeader
           /\ nth_error (split " " authHeader) 1 = Some token
           /\ verifyToken token now = Some payload
           /\ req' = set_user req (identity_of payload)).
Proof.
  intros Hsame Hdb.
  pose proof (authenticate_same_accounts now req _ _ Hsame Hdb) as Hfst.
  split; [exact Hfst | split].
  - unfold chain.
    destruct (authenticate now req st1) as [[r1|r1] s1],
             (authenticate now req st2) as [[r2|r2] s2];
      simpl in Hfst; try discriminate; injection Hfst as ->; reflexivity.
  - intros req' st'. apply authenticate_next_inv.
Qed.


(** *** Session Registry: insert, lookup, revoke *)

Lemma hd_filter_map {A : Type} (p : A -> bool) (f : A -> A) (l : list A) :
  (forall x, p (f x) = p x) ->
  hd_error (filter p (map f l)) = option_map f (hd_error (filter p l)).
Proof.
  intros Hp. induction l as [|a l IH]; simpl; [reflexivity |].
  rewrite Hp. destruct (p a); simpl; [reflexivity | exact IH].
Qed.

Lemma map_fixed {A : Type} (f : A -> A) (l : list A) :
  (forall x, In x l -> f x = x) -> map f l = l.
Proof.
  intros Hf. induction l as [|a l IH]; simpl; [reflexivity |].
  rewrite Hf by now left. rewrite IH; [reflexivity |].
  intros x Hx. apply Hf. now right.
Qed.

Lemma deactivateSession_run (token : string) (st st' : Store) :
  deactivateSession token st = Ok tt st' ->
  st' = {| users := users st;
           userSessions := map (revoke_row token) (userSessions st);
           auditLogs := auditLogs st |}.
Proof.
  unfold deactivateSession, db.
  destruct (db_throws _ st); [discriminate |]. now intros [= <-].
Qed.

Lemma revoked_not_active (token : string) (l : list Session) :
  filter (active_with token) (map (revoke_row token) l) = [].
Proof.
  induction l as [|a l IH]; simpl; [reflexivity |].
  unfold revoke_row at 1, active_with at 1.
  destruct (sess_token a =? token)%string eqn:Ha; simpl.
  - rewrite Ha. simpl. exact IH.
  - rewrite Ha. simpl. exact IH.
Qed.

Lemma revoked_others_kept (token t' : string) (l : list Session) :
  t' <> token ->
  filter (active_with t') (map (revoke_row token) l)
  = filter (active_with t') l.
Proof.
  intros Hne. induction l as [|a l IH]; simpl; [reflexivity |].
  rewrite IH. unfold revoke_row.
  destruct (sess_token a =? token)%string eqn:Ha; [| reflexivity].
  apply String.eqb_eq in Ha.
  assert (Hoff : forall s, sess_token s = token -> active_with t' s = false).
  { intros s Hs. unfold active_with.
    replace (sess_token s =? t')%string with false; [reflexivity |].
    symmetry. apply String.eqb_neq. congruence. }
  rewrite (Hoff a Ha), (Hoff (set_inactive a) Ha). reflexivity.
Qed.

(** X1. After [deactivateSession(token)] the token has no active session,
    and the lookup of any other token finds what it found before. *)
Theorem deactivateSession_revokes (token : string) (st st' : Store) :
  deactivateSession token st = Ok tt st' ->
  (db_throws (SelectActiveSession token) st' = false ->
   getActiveSession token st' = Ok None st')
  /\ (forall t', t' <> token ->
                 filter (active_with t') (userSessions st')
                 = filter (active_with t') (userSessions st)).
Proof.
  intros Hrun. apply deactivateSession_run in Hrun. subst st'. split.
  - intros Hdb. rewrite (getActiveSession_run _ _ Hdb). simpl.
    now rewrite revoked_not_active.
  - intros t' Hne. simpl. now apply revoked_others_kept.
Qed.

(** X2. [deactivateSession] is idempotent, and a no-op on a token that no
    row carries. *)
Theorem deactivateSession_idempotent (token : string) (st st1 : Store) :
  deactivateSession token st = Ok tt st1 ->
  (forall st2, deactivateSession token st1 = Ok tt st2 -> st2 = st1)
  /\ ((forall s, In s (userSessions st) -> sess_token s <> token) ->
      st1 = st).
Proof.
  intros Hrun. apply deactivateSession_run in Hrun. subst st1. split.
  - intros st2 Hrun2. apply deactivateSession_run in Hrun2. subst st2.
    simpl. f_equal. rewrite map_map. apply map_ext. intros s.
    unfold revoke_row. destruct (sess_token s =? token)%string eqn:Hs.
    + simpl. rewrite Hs. reflexivity.
    + rewrite Hs. reflexivity.
  - intros Hnone. destruct st as [us ss al]. simpl in *. f_equal.
    apply map_fixed. intros s Hs. unfold revoke_row.
    apply Hnone in Hs. apply String.eqb_neq in Hs. now rewrite Hs.
Qed.

Lemma createSession_run
      (userId token : string) (expiresAt : Time)
      (ipAddress userAgent : option string) (now : Time) (st st' : Store) :
  createSession userId token expiresAt ipAddress userAgent now st
  = Ok tt st' ->
  includes (map sess_token (userSessions st)) token = false
  /\ st' = {| users := users st;
              userSessions :=
                userSessions st
                ++ [new_session userId token expiresAt ipAddress userAgent
                                now];
              auditLogs := auditLogs st |}.
Proof.
  unfold createSession, db.
  destruct (includes (map sess_token (userSessions st)) token);
    [discriminate |].
  destruct (db_throws _ st); [discriminate |]. now intros [= <-].
Qed.

Lemma absent_token_not_active (token : string) (l : list Session) :
  includes (map sess_token l) token = false ->
  filter (active_with token) l = [].
Proof.
  induction l as [|a l IH]; simpl; [reflexivity |].
  rewrite orb_false_iff. intros [Ha Hl].
  unfold active_with at 1. rewrite Ha. simpl. now apply IH.
Qed.

(** X3. A session that [createSession] stored is the one [getActiveSession]
    returns for its token; lookups of other tokens are not affected. *)
Theorem createSession_then_getActiveSession
        (userId token : string) (expiresAt : Time)
        (ipAddress userAgent : option string) (now : Time)
        (st st' : Store) :
  createSession userId token expiresAt ipAddress userAgent now st
  = Ok tt st' ->
  (db_throws (SelectActiveSession token) st' = false ->
   getActiveSession token st'
   = Ok (Some (new_session userId token expiresAt ipAddress userAgent now))
        st')
  /\ (forall t', t' <> token ->
                 filter (active_with t') (userSessions st')
                 = filter (active_with t') (userSessions st)).
Proof.
  intros Hrun. apply createSession_run in Hrun as [Hnew ->]. split.
  - intros Hdb. rewrite (getActiveSession_run _ _ Hdb). simpl.
    rewrite filter_app, (absent_token_not_active _ _ Hnew). simpl.
    unfold active_with. simpl. rewrite String.eqb_refl. reflexivity.
  - intros t' Hne. simpl. rewrite filter_app. simpl.
    unfold active_with at 2. simpl.
    replace (token =? t')%string with false.
    + simpl. apply app_nil_r.
    + symmetry. apply String.eqb_neq. congruence.
Qed.


(** *** The gate and the store *)

Lemma createAuditLog_run (log : InsertAuditLog) (now : Time)
      (st st' : Store) :
  createAuditLog log now st = Ok tt st' ->
  st' = {| users := users st;
           userSessions := userSessions st;
           auditLogs :=
             auditLogs st
             ++ [{| audit_entry := log; audit_createdAt := now |}] |}.
Proof.
  unfold createAuditLog, db.
  destruct (db_throws _ st); [discriminate |]. now intros [= <-].
Qed.

(** X4. [authenticate] writes nothing when it refuses a request (and every
    refusal is a 401); when it lets one through, it has appended one
    [API_ACCESS] row for the token's user and touched no other table. *)
Theorem authenticate_writes_one_audit_row
        (now : Time) (req : Request) (st : Store)
        (out : MwResult) (st' : Store) :
  authenticate now req st = (out, st') ->
  match out with
  | Responded r => status r = 401 /\ st' = st
  | Next req' =>
      exists payload,
        req_user req' = Some (identity_of payload)
        /\ users st' = users st
        /\ userSessions st' = userSessions st
        /\ auditLogs st'
           = (auditLogs st
              ++ [{| audit_entry :=
                       user_event "API_ACCESS" (tp_userId payload) req;
                     audit_createdAt := now |}])%list
  end.
Proof.
  intros Hrun.
  destruct (authenticate_stages_exhaustive _ _ _ _ _ Hrun) as [Hcase | [-> ->]];
    [| now split].
  destruct Hcase; try (now split).
  match goal with H : createAuditLog _ _ _ = Ok tt _ |- _ =>
    apply createAuditLog_run in H; subst st' end.
  exists payload. repeat split.
Qed.

Lemma split_scheme (scheme rest : string) :
  (forall c, In c (list_ascii_of_string scheme) -> c <> " "%char) ->
  split " " (scheme ++ String " " rest) = scheme :: split " " rest.
Proof.
  induction scheme as [|c scheme IH]; intros Hns; [reflexivity |].
  simpl. destruct (Ascii.eqb c " ") eqn:Hc.
  - apply Ascii.eqb_eq in Hc. exfalso. apply (Hns c); [now left | exact Hc].
  - rewrite IH; [reflexivity |].
    intros c' Hc'. apply Hns. now right.
Qed.

(** X5. The first word of the [Authorization] header is not looked at: any
    two scheme words before the same token give the same response or the
    same attached identity, and the same store. *)
Theorem authenticate_ignores_scheme
        (now : Time) (req : Request) (st : Store)
        (scheme1 scheme2 rest : string) :
  (forall c, In c (list_ascii_of_string scheme1) -> c <> " "%char) ->
  (forall c, In c (list_ascii_of_string scheme2) -> c <> " "%char) ->
  let r1 := authenticate
              now (with_authorization (scheme1 ++ String " " rest) req) st in
  let r2 := authenticate
              now (with_authorization (scheme2 ++ String " " rest) req) st in
  snd r1 = snd r2
  /\ match fst r1, fst r2 with
     | Responded a, Responded b => a = b
     | Next a, Next b => req_user a = req_user b
     | _, _ => False
     end.
Proof.
  intros H1 H2. cbv zeta.
  unfold authenticate, try_catch, authenticate_body.
  cbn [headers_authorization with_authorization].
  assert (Hne : forall s, exists c h, s ++ String " " rest = String c h).
  { intros [|c s]; simpl; eauto. }
  destruct (Hne scheme1) as (c1 & h1 & E1).
  destruct (Hne scheme2) as (c2 & h2 & E2).
  rewrite E1, E2. rewrite <- E1, <- E2.
  rewrite (split_scheme _ _ H1), (split_scheme _ _ H2).
  cbn [nth_error].
  destruct (split " " rest) as [|[|c t] ws]; try (now split).
  destruct (verifyToken (String c t) now) as [p|]; [| now split].
  unfold bind. destruct (getUser (tp_userId p) st) as [[u|] st1|st1];
    try (now split).
  destruct (user_isActive u); simpl; [| now split].
  unfold createAuditLog, user_event, db. simpl.
  destruct (db_throws _ st1); now split.
Qed.


(** *** Logout *)

Lemma logout_revoke_run (req : Request) (st st' : Store) :
  logout_revoke req st = Ok tt st' ->
  st' = {| users := users st;
           userSessions :=
             match body_refreshToken req with
             | None | Some "" => userSessions st
             | Some token => map (revoke_row token) (userSessions st)
             end;
           auditLogs := auditLogs st |}.
Proof.
  unfold logout_revoke.
  destruct (body_refreshToken req) as [[|c t]|].
  1, 3: unfold ret; intros [= <-]; now destruct st.
  apply deactivateSession_run.
Qed.

Lemma logout_handler_ok_inv (now : Time) (req : Request) (st st' : Store)
      (r : Response) :
  logout_handler now req st = (r, st') ->
  status r = 200 ->
  exists u st1,
    req_user req = Some u
    /\ logout_revoke req st = Ok tt st1
    /\ createAuditLog (user_event "LOGOUT" (au_id u) req) now st1
       = Ok tt st'
    /\ r = message 200 "Logged out successfully".
Proof.
  unfold logout_handler, try_catch, logout_body, bind.
  destruct (logout_revoke req st) as [[] st1|st1] eqn:Hrev.
  2: { intros [= <- <-]. discriminate. }
  destruct (req_user req) as [u|].
  2: { unfold throw. intros [= <- <-]. discriminate. }
  destruct (createAuditLog _ now st1) as [[] st2|st2] eqn:Hlog.
  2: { intros [= <- <-]. discriminate. }
  unfold ret. intros [= <- <-] _. exists u, st1. repeat split. exact Hlog.
Qed.

(** X6. A logout that answers 200 has deactivated the sessions of the given
    refresh token (none without a token), appended one [LOGOUT] row for
    the caller, and left the users as they were. *)
Theorem logout_handler_effects (now : Time) (req : Request)
        (st st' : Store) (r : Response) :
  logout_handler now req st = (r, st') ->
  status r = 200 ->
  exists u,
    req_user req = Some u
    /\ users st' = users st
    /\ userSessions st'
       = match body_refreshToken req with
         | None | Some "" => userSessions st
         | Some token => map (revoke_row token) (userSessions st)
         end
    /\ auditLogs st'
       = (auditLogs st
          ++ [{| audit_entry := user_event "LOGOUT" (au_id u) req;
                 audit_createdAt := now |}])%list.
Proof.
  intros Hrun Hok.
  destruct (logout_handler_ok_inv _ _ _ _ _ Hrun Hok)
    as (u & st1 & Hu & Hrev & Hlog & _).
  apply logout_revoke_run in Hrev. apply createAuditLog_run in Hlog.
  subst st' st1. exists u. repeat split. exact Hu.
Qed.

Lemma authenticate_responded_401 (now : Time) (req : Request)
      (st st' : Store) (r : Response) :
  authenticate now req st = (Responded r, st') -> status r = 401.
Proof.
  intros Hrun.
  destruct (authenticate_stages_exhaustive _ _ _ _ _ Hrun) as [Hcase | [H _]].
  - inversion Hcase; reflexivity.
  - injection H as ->. reflexivity.
Qed.

(** X7. Once [POST /api/auth/logout] has answered 200 for a refresh token,
    [POST /api/auth/refresh] with that token does not answer 200 on the
    store the logout left; when the token still verifies and the lookup
    returns, the answer is 401 "Session not found or expired". *)
Theorem logout_then_refresh_refused
        (now : Time) (req : Request) (st : Store) (token : string) :
  status (fst (logout now req st)) = 200 ->
  body_refreshToken req = Some token -> token <> "" ->
  forall now' req',
    body_refreshToken req' = Some token ->
    status (fst (refresh now' req' (snd (logout now req st)))) <> 200
    /\ (forall payload,
           verifyRefreshToken token now' = Some payload ->
           db_throws (SelectActiveSession token) (snd (logout now req st))
           = false ->
           fst (refresh now' req' (snd (logout now req st)))
           = message 401 "Session not found or expired").
Proof.
  intros Hok Htok Hne now' req' Htok'.
  unfold logout, guarded in *.
  destruct (authenticate now req st) as [[r|req1] st1] eqn:Hauth.
  { apply authenticate_responded_401 in Hauth. simpl in Hok. congruence. }
  destruct (authenticate_next_inv _ _ _ _ _ Hauth) as (_ & _ & p & _ & _ & _ & ->).
  destruct (logout_handler now (set_user req (identity_of p)) st1)
    as [r st2] eqn:Hrun.
  simpl in Hok. simpl fst. simpl snd.
  destruct (logout_handler_ok_inv _ _ _ _ _ Hrun Hok)
    as (u & st1' & _ & Hrev & Hlog & _).
  apply logout_revoke_run in Hrev. apply createAuditLog_run in Hlog.
  simpl in Hrev. rewrite Htok in Hrev.
  destruct (nonempty_cons _ Hne) as (c & t & ->).
  assert (Hnone : filter (active_with (String c t)) (userSessions st2) = [])
    by (subst st2 st1'; apply revoked_not_active).
  unfold refresh, try_catch, refresh_body. rewrite Htok'.
  destruct (verifyRefreshToken (String c t) now') as [p'|].
  2: { split; [discriminate | intros ? [=]]. }
  unfold bind, getActiveSession, db.
  destruct (db_throws (SelectActiveSession (String c t)) st2).
  { split; [discriminate | intros ? _ [=]]. }
  rewrite Hnone. simpl. split; [discriminate | reflexivity].
Qed.


(** *** Login *)

Lemma updateUserLastLogin_run (id : string) (lastLogin now : Time)
      (st st' : Store) :
  updateUserLastLogin id lastLogin now st = Ok tt st' ->
  st' = {| users :=
             map (fun u => if (user_id u =? id)%string
                           then set_lastLogin lastLogin now u else u)
                 (users st);
           userSessions := userSessions st;
           auditLogs := auditLogs st |}.
Proof.
  unfold updateUserLastLogin, db.
  destruct (db_throws _ st); [discriminate |]. now intros [= <-].
Qed.

Lemma getUserByEmail_store (email : string) (st st' : Store)
      (r : option User) :
  getUserByEmail email st = Ok r st' ->
  st' = st
  /\ r = hd_error (filter (fun u => (user_email u =? email)%string)
                          (users st)).
Proof.
  unfold getUserByEmail, db.
  destruct (db_throws _ st); [discriminate |]. now intros [= <- <-].
Qed.

Lemma getUserByEmail_throw_store (email : string) (st st' : Store) :
  getUserByEmail email st = Throw st' -> st' = st.
Proof.
  unfold getUserByEmail, db.
  destruct (db_throws _ st); [| discriminate]. now intros [= <-].
Qed.

Lemma login_ok_inv (now : Time) (req : Request) (st : Store) :
  status (fst (login now req st)) = 200 ->
  exists email password user st1 st2 st3,
    body_email req = Some email /\ email <> ""
    /\ body_password req = Some password /\ password <> ""
    /\ getUserByEmail email st = Ok (Some user) st
    /\ user_isActive user = true
    /\ comparePassword password (user_password user) = true
    /\ updateUserLastLogin (user_id user) now now st = Ok tt st1
    /\ createSession (user_id user)
                     (refreshToken (generateTokens (payload_of user) now))
                     (now + 7 * 24 * 60 * 60 * 1000)
                     (req_ip req) (req_userAgent req) now st1 = Ok tt st2
    /\ createAuditLog (user_event "LOGIN" (user_id user) req) now st2
       = Ok tt st3
    /\ login now req st
       = (json (JObj
                  [("accessToken",
                    JStr (accessToken
                            (generateTokens (payload_of user) now)));
                   ("refreshToken",
                    JStr (refreshToken
                            (generateTokens (payload_of user) now)));
                   ("user", user_projection user)]), st3).
Proof.
  unfold login, try_catch, login_body.
  destruct (body_email req) as [email|]; [| discriminate].
  destruct (body_password req) as [password|]; [| discriminate].
  destruct (email =? "")%string eqn:He; [discriminate |].
  destruct (password =? "")%string eqn:Hp; [discriminate |].
  cbv beta iota delta [orb]. unfold bind.
  destruct (getUserByEmail email st) as [[user|] st0|st0] eqn:Hq;
    try discriminate.
  destruct (getUserByEmail_store _ _ _ _ Hq) as [-> _].
  destruct (user_isActive user) eqn:Hact; [| discriminate].
  destruct (comparePassword password (user_password user)) eqn:Hpw;
    [| discriminate].
  cbv beta iota zeta delta [negb].
  destruct (updateUserLastLogin (user_id user) now now st)
    as [[] st1|st1] eqn:Hup; [| discriminate].
  destruct (createSession _ _ _ _ _ now st1) as [[] st2|st2] eqn:Hcs;
    [| discriminate].
  destruct (createAuditLog _ now st2) as [[] st3|st3] eqn:Hlog;
    [| discriminate].
  intros _. exists email, password, user, st1, st2, st3.
  apply String.eqb_neq in He, Hp. repeat split; assumption.
Qed.


(** X9. A login that answers 400 or 401 writes nothing: no session, no
    audit row, no change to any user. *)
Theorem failed_login_writes_nothing
        (now : Time) (req : Request) (st : Store) :
  status (fst (login now req st)) = 400
  \/ status (fst (login now req st)) = 401 ->
  snd (login now req st) = st.
Proof.
  unfold login, try_catch, login_body.
  destruct (body_email req) as [email|]; [| reflexivity].
  destruct (body_password req) as [password|]; [| reflexivity].
  destruct ((email =? "")%string || (password =? "")%string);
    [reflexivity |].
  unfold bind.
  destruct (getUserByEmail email st) as [[user|] st0|st0] eqn:Hq.
  2: { apply getUserByEmail_store in Hq as [-> _]. reflexivity. }
  2: { apply getUserByEmail_throw_store in Hq as ->. reflexivity. }
  apply getUserByEmail_store in Hq as [-> _].
  destruct (user_isActive user); [| reflexivity].
  destruct (comparePassword password (user_password user)); [| reflexivity].
  cbv beta iota zeta delta [negb].
  destruct (updateUserLastLogin _ _ _ st) as [[] st1|st1];
    [| simpl; intros [H | H]; discriminate].
  destruct (createSession _ _ _ _ _ _ st1) as [[] st2|st2];
    [| simpl; intros [H | H]; discriminate].
  destruct (createAuditLog _ _ st2) as [[] st3|st3];
    simpl; intros [H | H]; discriminate.
Qed.


Lemma hd_filter_unique_id (l : list User) (u : User) :
  NoDup (map user_id l) -> In u l ->
  hd_error (filter (fun x => (user_id x =? user_id u)%string) l) = Some u.
Proof.
  intros Hnd Hin. induction l as [|a l IH]; simpl in *; [contradiction |].
  inversion Hnd as [|x xs Hnotin Hnd']; subst x xs.
  destruct Hin as [-> | Hin].
  - now rewrite String.eqb_refl.
  - destruct (user_id a =? user_id u)%string eqn:Ha.
    + apply String.eqb_eq in Ha. exfalso. apply Hnotin. rewrite Ha.
      now apply in_map.
    + now apply IH.
Qed.

(** X10. The refresh token of a login that answered 200 is accepted by
    [POST /api/auth/refresh] on the store the login left, as long as it
    verifies: the session is found and the pair is renewed for the same
    user.  ([users.id] is the primary key: identifiers are distinct.) *)
Theorem login_then_refresh
        (now now' : Time) (req req' : Request) (st : Store) :
  status (fst (login now req st)) = 200 ->
  NoDup (map user_id (users st)) ->
  exists user,
    body (fst (login now req st))
    = JObj [("accessToken",
             JStr (accessToken (generateTokens (payload_of user) now)));
            ("refreshToken",
             JStr (refreshToken (generateTokens (payload_of user) now)));
            ("user", user_projection user)]
    /\ forall payload,
        body_refreshToken req'
        = Some (refreshToken (generateTokens (payload_of user) now)) ->
        refreshToken (generateTokens (payload_of user) now) <> "" ->
        verifyRefreshToken
          (refreshToken (generateTokens (payload_of user) now)) now'
        = Some payload ->
        tp_userId payload = user_id user ->
        (forall stmt, db_throws stmt (snd (login now req st)) = false) ->
        fst (refresh now' req' (snd (login now req st)))
        = json (JObj
                  [("accessToken",
                    JStr (accessToken
                            (generateTokens (payload_of user) now')));
                   ("refreshToken",
                    JStr (refreshToken
                            (generateTokens (payload_of user) now')))]).
Proof.
  intros Hok Hids.
  destruct (login_ok_inv _ _ _ Hok)
    as (email & password & user & st1 & st2 & st3 & _ & _ & _ & _
        & Hq & Hact & _ & Hup & Hcs & Hlog & ->).
  exists user. split; [reflexivity |].
  intros payload Htok Hne Hv Hid Hdb. simpl fst in *. simpl snd in *.
  apply getUserByEmail_store in Hq as [_ Hq]. symmetry in Hq.
  apply hd_filter_In in Hq as [Hin _].
  apply updateUserLastLogin_run in Hup.
  apply createSession_run in Hcs as [Hnew Hcs].
  apply createAuditLog_run in Hlog.
  set (tok := refreshToken (generateTokens (payload_of user) now)) in *.
  unfold refresh, try_catch, refresh_body. rewrite Htok.
  destruct (nonempty_cons _ Hne) as (c & t & Etok). rewrite Etok.
  rewrite <- Etok. rewrite Hv. unfold bind.
  rewrite (getActiveSession_run _ _ (Hdb _)).
  assert (Hsess : userSessions st3
                  = (userSessions st1
                     ++ [new_session (user_id user) tok
                                     (now + 7 * 24 * 60 * 60 * 1000)
                                     (req_ip req) (req_userAgent req) now])%list)
    by (subst st3 st2; reflexivity).
  rewrite Hsess, filter_app, (absent_token_not_active _ _ Hnew).
  assert (Hnewrow : forall row,
             row = new_session (user_id user) tok
                               (now + 7 * 24 * 60 * 60 * 1000)
                               (req_ip req) (req_userAgent req) now ->
             active_with tok row = true).
  { intros row ->. unfold active_with. simpl. now rewrite String.eqb_refl. }
  cbn [filter app]. rewrite (Hnewrow _ eq_refl). cbn [hd_error].
  unfold getUser, db. rewrite Hdb, Hid.
  assert (Husers : users st3
                   = map (fun u => if (user_id u =? user_id user)%string
                                   then set_lastLogin now now u else u)
                         (users st))
    by (subst st3 st2 st1; reflexivity).
  rewrite Husers.
  rewrite (hd_filter_map
             (fun u => (user_id u =? user_id user)%string)
             (fun u => if (user_id u =? user_id user)%string
                       then set_lastLogin now now u else u)).
  2: { intros x. destruct (user_id x =? user_id user)%string eqn:E;
       simpl; now rewrite E. }
  rewrite (hd_filter_unique_id _ _ Hids Hin). cbn [option_map].
  rewrite (String.eqb_refl (user_id user)). cbn [user_isActive set_lastLogin negb].
  rewrite Hact. reflexivity.
Qed.

(** *** Deactivated users *)

Lemma deactivateUser_run (id : string) (now : Time) (st st' : Store) :
  deactivateUser id now st = Ok tt st' ->
  st' = {| users :=
             map (fun u => if (user_id u =? id)%string
                           then set_inactive_user now u else u) (users st);
           userSessions := userSessions st;
           auditLogs := auditLogs st |}.
Proof.
  unfold deactivateUser, users_db.
  destruct (users_throws _ st); [discriminate |]. now intros [= <-].
Qed.

Lemma deactivated_rows_inactive (id : string) (now : Time) (l : list User)
      (u : User) :
  In u (map (fun u => if (user_id u =? id)%string
                      then set_inactive_user now u else u) l) ->
  user_id u = id -> user_isActive u = false.
Proof.
  intros Hin Hid. apply in_map_iff in Hin as (x & Hx & _).
  destruct (user_id x =? id)%string eqn:Hxid.
  - now subst u.
  - subst u. apply String.eqb_neq in Hxid. contradiction.
Qed.

(** X11. After [deactivateUser(id)] nothing is done in the name of [id]: no
    request is authenticated as [id], a refresh token of [id] is not
    renewed, and a login that resolves to [id] does not succeed.  (The
    user's sessions stay as they were.) *)
Theorem deactivated_user_locked_out
        (id : string) (now0 : Time) (st st' : Store) :
  deactivateUser id now0 st = Ok tt st' ->
  userSessions st' = userSessions st
  /\ (forall now req req' st'' u,
         authenticate now req st' = (Next req', st'') ->
         req_user req' = Some u -> au_id u <> id)
  /\ (forall now req token payload,
         body_refreshToken req = Some token ->
         verifyRefreshToken token now = Some payload ->
         tp_userId payload = id ->
         status (fst (refresh now req st')) <> 200)
  /\ (forall now req email u,
         body_email req = Some email ->
         getUserByEmail email st' = Ok (Some u) st' ->
         user_id u = id ->
         status (fst (login now req st')) <> 200).
Proof.
  intros Hrun. apply deactivateUser_run in Hrun.
  assert (Hoff : forall u, In u (users st') -> user_id u = id ->
                           user_isActive u = false).
  { intros u Hin. subst st'. simpl in Hin.
    now apply deactivated_rows_inactive with (now := now0) (l := users st). }
  split; [now subst st' | split; [| split]].
  - intros now req req' st'' u Hauth Hu Hid.
    destruct (authenticate_stages_exhaustive _ _ _ _ _ Hauth)
      as [Hcase | [[=] _]].
    inversion Hcase as [| | | | | h t p u0 s Hh Hne Ht Hnt Hv Hget Hact Hlog E1 E2].
    subst req' s. simpl in Hu. injection Hu as <-. simpl in Hid.
    unfold getUser, db in Hget.
    destruct (db_throws _ st'); [discriminate |].
    injection Hget as Hget. apply hd_filter_In in Hget as [Hin Hp].
    apply String.eqb_eq in Hp.
    rewrite (Hoff u0 Hin) in Hact by congruence. discriminate.
  - intros now req token payload Htok Hv Hid.
    unfold refresh, try_catch, refresh_body. rewrite Htok.
    destruct token as [|c t]; [discriminate |]. rewrite Hv. unfold bind.
    destruct (getActiveSession (String c t) st') as [[s|] st1|st1] eqn:Hs;
      try discriminate.
    apply getActiveSession_store in Hs. subst st1.
    unfold getUser, db. destruct (db_throws _ st'); [discriminate |].
    destruct (hd_error _) as [u|] eqn:Hget; [| discriminate].
    apply hd_filter_In in Hget as [Hin Hp]. apply String.eqb_eq in Hp.
    rewrite (Hoff u Hin) by congruence. discriminate.
  - intros now req email u Hemail Hget Hid.
    unfold login, try_catch, login_body. rewrite Hemail.
    destruct (body_password req) as [password|]; [| discriminate].
    destruct ((email =? "")%string || (password =? "")%string);
      [discriminate |].
    unfold bind. rewrite Hget.
    apply getUserByEmail_store in Hget as [_ Hget]. symmetry in Hget.
    apply hd_filter_In in Hget as [Hin _].
    rewrite (Hoff u Hin Hid). discriminate.
Qed.


(** *** Password reset *)


(** X12. [POST /api/auth/forgot-password] gives one answer for every email,
    known or not, as long as no storage call throws. *)
Theorem forgot_password_uniform_answer
        (random : Unit01) (now : Time) (req : Request) (st : Store)
        (email : string) :
  (forall stmt st0, db_throws stmt st0 = false) ->
  (forall stmt st0, users_throws stmt st0 = false) ->
  body_email req = Some email -> email <> "" ->
  fst (forgot_password random now req st)
  = json (JObj [("message",
                 JStr "If the email exists, a recovery link has been sent")]).
Proof.
  intros Hdb Husers Hemail Hne.
  unfold forgot_password, try_catch, forgot_password_body. rewrite Hemail.
  destruct (nonempty_cons _ Hne) as (c & e & ->).
  unfold bind, getUserByEmail, updateUser, createAuditLog, db, users_db.
  rewrite Hdb. destruct (hd_error _) as [user|]; [| reflexivity].
  rewrite Husers, Hdb. reflexivity.
Qed.







(** *** Seeding the administrator *)

Lemma seedAdminUser_cases (now : Time) (st : Store) :
  seedAdminUser now st = st
  \/ (hd_error (filter is_admin_email (users st)) = None
      /\ seedAdminUser now st
         = {| users :=
                users st
                ++ [new_user (gen_random_uuid st) admin_seed now];
              userSessions := userSessions st;
              auditLogs := auditLogs st |}).
Proof.
  unfold seedAdminUser, try_catch, seedAdminUser_body, bind,
    getUserByEmail, createUser, db, users_db.
  destruct (db_throws _ st); [now left |].
  fold is_admin_email.
  destruct (hd_error (filter is_admin_email (users st))) as [u|];
    [now left |].
  destruct (users_throws _ st); [now left |].
  right. split; reflexivity.
Qed.

Lemma seedAdminUser_keeps_admin (now : Time) (st : Store) (u : User) :
  hd_error (filter is_admin_email (users st)) = Some u ->
  seedAdminUser now st = st.
Proof.
  intros Hu. destruct (seedAdminUser_cases now st) as [H | [H _]];
    [exact H | congruence].
Qed.


End Server.

(** ** Concrete runs *)

(** C2, as stated, fails.  The token verifies and its user is stored and
    active, but the insert into [audit_logs] throws: the gate does not
    let the request through, and answers 401 "Authentication failed",
    which is none of the four refusals of the claim. *)
Lemma authenticate_audit_failure_is_401 :
  verifyToken Sample.verify Sample.no_env Sample.access_token 2000
  = Some Sample.admin_payload
  /\ getUser Sample.audit_down "u-1" Sample.logged_in
     = Ok (Some Sample.admin) Sample.logged_in
  /\ user_isActive Sample.admin = true
  /\ authenticate Sample.verify Sample.audit_down Sample.no_env 2000
                  (Sample.bearer_request Sample.access_token)
                  Sample.logged_in
     = (Responded
          {| status := 401;
             body := JObj [("message", JStr "Authentication failed")] |},
        Sample.logged_in).
Proof. repeat split. Qed.

(** With the audit table up the same request passes, as the token's
    user, and the access is logged. *)
Lemma authenticate_outcomes_witness :
  authenticate Sample.verify Sample.never_throws Sample.no_env 2000
               (Sample.bearer_request Sample.access_token) Sample.seeded
  = (Next
       {| headers_authorization :=
            Some "Bearer your-secret-key-change-in-production";
          body_email := None;
          body_password := None;
          body_refreshToken := None;
          req_ip := Some "127.0.0.1";
          req_userAgent := Some "curl/8.5.0";
          req_user := Some {| au_id := "u-1";
                              au_email := "admin@mecone.com";
                              au_profile := "ADMINISTRATOR" |} |},
     {| users := [Sample.admin];
        userSessions := [];
        auditLogs :=
          [{| audit_entry :=
                {| log_userId := Some "u-1";
                   log_action := "API_ACCESS";
                   log_table := "users";
                   log_recordId := Some "u-1";
                   log_oldValues := None;
                   log_newValues := None;
                   log_ipAddress := Some "127.0.0.1";
                   log_userAgent := Some "curl/8.5.0" |};
              audit_createdAt := 2000 |}] |}).
Proof.
  apply (proj2 (authenticate_outcomes
                  Sample.verify Sample.never_throws Sample.no_env 2000
                  (Sample.bearer_request Sample.access_token)
                  Sample.seeded _ _)).
  apply (AnswerProceed
           Sample.verify Sample.never_throws Sample.no_env 2000
           (Sample.bearer_request Sample.access_token) Sample.seeded
           ("Bearer " ++ Sample.access_token) Sample.access_token
           Sample.admin_payload Sample.admin);
    try reflexivity; discriminate.
Defined.



(** Allow-set {ADMINISTRATOR, MANAGER}: COORDINATOR is refused with 403,
    MANAGER passes. *)
Lemma authorize_decisions_witness :
  authorize ["ADMINISTRATOR"; "MANAGER"] (Sample.with_role "COORDINATOR")
  = Responded {| status := 403;
                 body := JObj [("message",
                                JStr "Insufficient permissions")] |}
  /\ authorize ["ADMINISTRATOR"; "MANAGER"] (Sample.with_role "MANAGER")
     = Next (Sample.with_role "MANAGER").
Proof.
  split.
  - destruct (authorize_decisions
                Sample.verify Sample.never_throws Sample.no_env
                ["ADMINISTRATOR"; "MANAGER"]
                (Sample.with_role "COORDINATOR"))
      as (_ & Hout & _).
    apply (Hout _ eq_refl). simpl. intros [H | [H | []]]; discriminate.
  - destruct (authorize_decisions
                Sample.verify Sample.never_throws Sample.no_env
                ["ADMINISTRATOR"; "MANAGER"]
                (Sample.with_role "MANAGER"))
      as (_ & _ & Hin & _).
    apply (Hin _ eq_refl). simpl. right. now left.
Defined.

(** X15. [seedAdminUser] adds at most the administrator's row and never
    touches sessions or audit rows.  A store that has a row for
    admin@mecone.com is left as it is, whatever fails in that run; a run
    in which neither the lookup nor the insert throws leaves a store
    with such a row.  The two runs need not fail alike: a run that threw
    has seeded nothing, and a later run may. *)
Theorem seedAdminUser_seeds_once
        (db1 db2 : DbStmt -> Store -> bool) (hash1 hash2 : string -> string)
        (uuid1 uuid2 : Store -> string)
        (users1 users2 : UsersStmt -> Store -> bool)
        (now now' : Time) (st : Store) :
  let st1 := seedAdminUser db1 hash1 uuid1 users1 now st in
  (st1 = st
   \/ st1 = {| users :=
                 users st
                 ++ [new_user (uuid1 st) (admin_seed hash1) now];
               userSessions := userSessions st;
               auditLogs := auditLogs st |})
  /\ (db1 (SelectUserByEmail "admin@mecone.com") st = true
      \/ users1 (InsertUserRow (admin_seed hash1)) st = true
      \/ (exists u, hd_error (filter is_admin_email (users st)) = Some u) ->
      st1 = st)
  /\ (db1 (SelectUserByEmail "admin@mecone.com") st = false ->
      users1 (InsertUserRow (admin_seed hash1)) st = false ->
      exists u, hd_error (filter is_admin_email (users st1)) = Some u)
  /\ ((exists u, hd_error (filter is_admin_email (users st1)) = Some u) ->
      seedAdminUser db2 hash2 uuid2 users2 now' st1 = st1).
Proof.
  cbv zeta. split; [| split; [| split]].
  - destruct (seedAdminUser_cases db1 hash1 uuid1 users1 now st)
      as [H | [_ H]]; auto.
  - unfold seedAdminUser, try_catch, seedAdminUser_body, bind,
      getUserByEmail, createUser, db, users_db.
    fold is_admin_email.
    destruct (db1 (SelectUserByEmail "admin@mecone.com") st);
      [reflexivity |].
    destruct (hd_error (filter is_admin_email (users st))) as [u|];
      [reflexivity |].
    destruct (users1 (InsertUserRow (admin_seed hash1)) st);
      [reflexivity |].
    intros [H | [H | [u H]]]; discriminate.
  - intros Hdb Husers.
    unfold seedAdminUser, try_catch, seedAdminUser_body, bind,
      getUserByEmail, createUser, db, users_db.
    fold is_admin_email. rewrite Hdb.
    destruct (hd_error (filter is_admin_email (users st))) as [u|] eqn:Hu.
    + exists u. exact Hu.
    + rewrite Husers. simpl. rewrite filter_app.
      exists (new_user (uuid1 st) (admin_seed hash1) now).
      destruct (filter is_admin_email (users st)); [reflexivity |].
      discriminate.
  - intros [u Hu].
    exact (seedAdminUser_keeps_admin db2 hash2 uuid2 users2 now' _ u Hu).
Qed.


(** Unknown email and wrong password: one and the same answer. *)
Lemma login_invalid_credentials_uniform_witness :
  login Sample.sign Sample.compare Sample.never_throws Sample.no_env 1000
        (Sample.login_request "nobody@mecone.com" "admin123") Sample.seeded
  = (message 401 "Invalid credentials", Sample.seeded)
  /\ login Sample.sign Sample.compare Sample.never_throws Sample.no_env 1000
           (Sample.login_request "admin@mecone.com" "wrong") Sample.seeded
     = (message 401 "Invalid credentials", Sample.seeded).
Proof.
  split.
  - apply (login_invalid_credentials_uniform
             Sample.sign Sample.compare Sample.never_throws Sample.no_env
             1000 _ _ "nobody@mecone.com" "admin123");
      try reflexivity; try discriminate.
    apply UnknownEmail. reflexivity.
  - apply (login_invalid_credentials_uniform
             Sample.sign Sample.compare Sample.never_throws Sample.no_env
             1000 _ _ "admin@mecone.com" "wrong");
      try reflexivity; try discriminate.
    apply (WrongPassword _ _ _ _ _ Sample.admin); reflexivity.
Defined.

(** A refresh with the session's token: 200, and the store is the same. *)
Lemma refresh_does_not_rotate_witness :
  status (fst (refresh Sample.sign Sample.verify Sample.never_throws
                       Sample.no_env 2000
                       (Sample.refresh_request Sample.refresh_token)
                       Sample.logged_in)) = 200
  /\ snd (refresh Sample.sign Sample.verify Sample.never_throws
                  Sample.no_env 2000
                  (Sample.refresh_request Sample.refresh_token)
                  Sample.logged_in) = Sample.logged_in.
Proof.
  split; [reflexivity |].
  apply (refresh_does_not_rotate
           Sample.sign Sample.verify Sample.never_throws Sample.no_env).
  reflexivity.
Defined.

(** The session expired at [604801000]; at [700000000] it is still
    returned. *)
Lemma getActiveSession_ignores_expiresAt_witness :
  sess_expiresAt Sample.admin_session < 700000000
  /\ getActiveSession Sample.never_throws Sample.refresh_token
                      Sample.logged_in
     = Ok (Some Sample.admin_session) Sample.logged_in.
Proof.
  split; [reflexivity |].
  assert (Huniq : NoDup (map sess_token (userSessions Sample.logged_in))).
  { simpl. constructor; [intros [] | constructor]. }
  destruct (getActiveSession_ignores_expiresAt
              Sample.sign Sample.verify Sample.never_throws Sample.no_env
              Sample.refresh_token Sample.logged_in eq_refl Huniq)
    as (_ & Hpast & _).
  apply (Hpast Sample.admin_session 700000000);
    [now left | reflexivity | reflexivity | reflexivity].
Defined.



(** C8, as stated, fails.  With neither variable in the environment the
    secrets are the two constants of [server/auth.ts], the pair is signed
    with them, and a token signed with the access constant verifies. *)
Lemma secrets_are_defaulted :
  JWT_SECRET Sample.no_env = "your-secret-key-change-in-production"
  /\ JWT_REFRESH_SECRET Sample.no_env
     = "your-refresh-secret-key-change-in-production"
  /\ generateTokens Sample.sign Sample.no_env Sample.admin_payload 1000
     = {| accessToken :=
            Sample.sign Sample.admin_payload
                        "your-secret-key-change-in-production" "15m" 1000;
          refreshToken :=
            Sample.sign Sample.admin_payload
                        "your-refresh-secret-key-change-in-production"
                        "7d" 1000 |}
  /\ verifyToken
       Sample.verify Sample.no_env
       (Sample.sign Sample.admin_payload
                    "your-secret-key-change-in-production" "15m" 1000) 2000
     = Some Sample.admin_payload.
Proof. repeat split. Qed.

Lemma secrets_fall_back_to_constants_witness :
  accessToken (generateTokens Sample.sign Sample.no_env
                              Sample.admin_payload 1000)
  = Sample.sign Sample.admin_payload
                "your-secret-key-change-in-production" "15m" 1000
  /\ verifyRefreshToken Sample.verify Sample.no_env Sample.refresh_token 2000
     = Sample.verify Sample.refresh_token
                     "your-refresh-secret-key-change-in-production" 2000.
Proof.
  destruct (secrets_fall_back_to_constants
              Sample.sign Sample.verify Sample.no_env
              Sample.admin_payload Sample.refresh_token 1000)
    as (Haccess & _).
  destruct (secrets_fall_back_to_constants
              Sample.sign Sample.verify Sample.no_env
              Sample.admin_payload Sample.refresh_token 2000)
    as (_ & Hrefresh & _).
  split.
  - apply Haccess. now left.
  - apply Hrefresh. now left.
Defined.

(** *** Temporary passwords *)

Lemma rest36_mod (e : Z) (fuel : nat) (m : Z) :
  0 <= m < 2 ^ e ->
  rest36 fuel m e = (36 ^ Z.of_nat fuel * m) mod 2 ^ e.
Proof.
  revert m. induction fuel as [|fuel IH]; intros m Hm.
  - cbn [rest36]. change (Z.of_nat 0) with 0.
    rewrite Z.pow_0_r, Z.mul_1_l. symmetry. now apply Z.mod_small.
  - cbn [rest36]. destruct (m =? 0) eqn:Hz.
    + apply Z.eqb_eq in Hz. subst m. rewrite Z.mul_0_r. reflexivity.
    + rewrite IH by (apply Z.mod_pos_bound; lia).
      rewrite Z.mul_mod_idemp_r by lia.
      rewrite Nat2Z.inj_succ, Z.pow_succ_r by lia.
      f_equal. ring.
Qed.

(** [expo] digits are enough: nothing of the expansion is left. *)
Lemma toString36_prints_all (x : Unit01) :
  is_double01 x = true ->
  rest36 (Z.to_nat (expo x)) (mant x) (expo x) = 0.
Proof.
  unfold is_double01. rewrite !andb_true_iff.
  intros ((((Hm0 & Hm1) & _) & He0) & _).
  apply Z.leb_le in Hm0, He0. apply Z.ltb_lt in Hm1.
  rewrite rest36_mod by lia. rewrite Z2Nat.id by lia.
  change 36 with (2 * 18). rewrite Z.pow_mul_l.
  rewrite <- Z.mul_assoc, Z.mul_comm. apply Z.mod_mul.
  apply Z.pow_nonzero; lia.
Qed.

Lemma substring_length_le (n m : nat) (s : string) :
  (String.length (substring n m s) <= m)%nat.
Proof.
  revert n m. induction s as [|c s IH]; intros n m.
  - destruct n, m; simpl; lia.
  - destruct n as [|n]; simpl.
    + destruct m as [|m]; simpl; [lia |].
      specialize (IH 0%nat m). lia.
    + apply IH.
Qed.

Lemma generateTemporaryPassword_at_most_8 (random : Unit01) :
  (String.length (generateTemporaryPassword random) <= 8)%nat.
Proof. apply substring_length_le. Qed.

(** C9 at the draw 0.5: the base-36 form is ["0.i"], [slice(-8)] keeps
    all of it, and the password has 3 characters; at the draw 0 it is
    ["0"]. *)
Theorem generateTemporaryPassword_short_draws :
  is_double01 Sample.one_half = true
  /\ generateTemporaryPassword Sample.one_half = "0.i"
  /\ (String.length (generateTemporaryPassword Sample.one_half) < 6)%nat
  /\ generateTemporaryPassword {| mant := 0; expo := 0 |} = "0".
Proof. repeat split. simpl. lia. Qed.

(** One token, two databases: in the second the user is a COORDINATOR
    under another email, and the request still runs as the
    ADMINISTRATOR of the token. *)
Lemma identity_from_token_payload_witness :
  fst (authenticate Sample.verify Sample.never_throws Sample.no_env 2000
                    (Sample.bearer_request Sample.access_token)
                    Sample.seeded)
  = fst (authenticate Sample.verify Sample.never_throws Sample.no_env 2000
                      (Sample.bearer_request Sample.access_token)
                      Sample.demoted)
  /\ fst (chain (authenticate Sample.verify Sample.never_throws
                              Sample.no_env 2000)
                (pure_mw (authorize ["ADMINISTRATOR"]))
                (Sample.bearer_request Sample.access_token) Sample.demoted)
     = Next (set_user (Sample.bearer_request Sample.access_token)
                      (identity_of Sample.admin_payload)).
Proof.
  assert (Hsame : same_accounts Sample.seeded Sample.demoted).
  { constructor; [split; reflexivity | constructor]. }
  destruct (identity_from_token_payload
              Sample.verify Sample.never_throws Sample.no_env 2000
              (Sample.bearer_request Sample.access_token)
              Sample.seeded Sample.demoted ["ADMINISTRATOR"]
              Hsame (fun _ => eq_refl)) as (Hauth & Hgate & _).
  split; [exact Hauth |].
  rewrite <- Hgate. reflexivity.
Defined.

(** ** Documents, phones and postal codes *)

Module ValidatorsFacts.
Import Validators.

Lemma only_digits_app (a b : string) :
  only_digits (a ++ b) = only_digits a ++ only_digits b.
Proof.
  induction a as [|c a IH]; simpl; [reflexivity |].
  destruct (is_digit c); simpl; now rewrite IH.
Qed.

Lemma only_digits_idempotent (s : string) :
  only_digits (only_digits s) = only_digits s.
Proof.
  induction s as [|c s IH]; simpl; [reflexivity |].
  destruct (is_digit c) eqn:Hc; simpl; [| exact IH].
  now rewrite Hc, IH.
Qed.

Lemma take_drop (n : nat) (s : string) : take n s ++ drop n s = s.
Proof.
  revert s. induction n as [|n IH]; intros [|c s]; simpl;
    try reflexivity. now rewrite IH.
Qed.

Lemma drop_drop (n m : nat) (s : string) :
  drop n (drop m s) = drop (m + n) s.
Proof.
  revert s. induction m as [|m IH]; intros s; simpl; [reflexivity |].
  destruct s as [|c s]; [now destruct n | apply IH].
Qed.

(** Cut a string in groups: the groups and the rest make the string. *)
Lemma take_then (n m k : nat) (s : string) :
  k = (n + m)%nat ->
  drop n s = take m (drop n s) ++ drop k s.
Proof. intros ->. now rewrite <- drop_drop, take_drop. Qed.

Lemma formatCPF_digits (s : string) :
  only_digits (formatCPF s) = only_digits s.
Proof.
  unfold formatCPF.
  destruct (11 <=? String.length (only_digits s))%nat;
    [| apply only_digits_idempotent].
  rewrite !only_digits_app. change (only_digits ".") with "".
  change (only_digits "-") with "". cbn [append].
  rewrite <- !only_digits_app.
  rewrite <- (take_then 9 2 11 _ eq_refl), <- (take_then 6 3 9 _ eq_refl), <- (take_then 3 3 6 _ eq_refl).
  rewrite take_drop. apply only_digits_idempotent.
Qed.

Lemma formatCNPJ_digits (s : string) :
  only_digits (formatCNPJ s) = only_digits s.
Proof.
  unfold formatCNPJ.
  destruct (14 <=? String.length (only_digits s))%nat;
    [| apply only_digits_idempotent].
  rewrite !only_digits_app. change (only_digits ".") with "".
  change (only_digits "/") with "". change (only_digits "-") with "".
  cbn [append]. rewrite <- !only_digits_app.
  rewrite <- (take_then 12 2 14 _ eq_refl), <- (take_then 8 4 12 _ eq_refl), <- (take_then 5 3 8 _ eq_refl),
    <- (take_then 2 3 5 _ eq_refl).
  rewrite take_drop. apply only_digits_idempotent.
Qed.

Lemma take_all (n : nat) (s : string) :
  String.length s = n -> take n s = s.
Proof.
  revert s. induction n as [|n IH]; intros [|c s]; simpl;
    try reflexivity; try discriminate.
  intros [= H]. now rewrite IH.
Qed.

Lemma length_drop (n : nat) (s : string) :
  String.length (drop n s) = (String.length s - n)%nat.
Proof.
  revert s. induction n as [|n IH]; intros [|c s]; simpl;
    try reflexivity. apply IH.
Qed.

Lemma formatPhone_digits (s : string) :
  only_digits (formatPhone s) = only_digits s.
Proof.
  unfold formatPhone.
  destruct (String.length (only_digits s) =? 10)%nat eqn:H10.
  - apply Nat.eqb_eq in H10.
    rewrite !only_digits_app. change (only_digits "(") with "".
    change (only_digits ") ") with "". change (only_digits "-") with "".
    cbn [append]. rewrite <- !only_digits_app.
    assert (E : take 4 (drop 6 (only_digits s)) = drop 6 (only_digits s))
      by (apply take_all; rewrite length_drop; lia).
    rewrite E, <- (take_then 2 4 6 _ eq_refl), take_drop.
    apply only_digits_idempotent.
  - destruct (String.length (only_digits s) =? 11)%nat eqn:H11;
      [| apply only_digits_idempotent].
    apply Nat.eqb_eq in H11.
    rewrite !only_digits_app. change (only_digits "(") with "".
    change (only_digits ") ") with "". change (only_digits "-") with "".
    cbn [append]. rewrite <- !only_digits_app.
    assert (E : take 4 (drop 7 (only_digits s)) = drop 7 (only_digits s))
      by (apply take_all; rewrite length_drop; lia).
    rewrite E, <- (take_then 2 5 7 _ eq_refl), take_drop.
    apply only_digits_idempotent.
Qed.

Lemma formatCEP_digits (s : string) :
  only_digits (formatCEP s) = only_digits s.
Proof.
  unfold formatCEP.
  destruct (8 <=? String.length (only_digits s))%nat;
    [| apply only_digits_idempotent].
  rewrite !only_digits_app. change (only_digits "-") with "".
  cbn [append]. rewrite <- !only_digits_app.
  rewrite <- (take_then 5 3 8 _ eq_refl), take_drop. apply only_digits_idempotent.
Qed.

(** X18. A document is as valid written with its punctuation as without:
    formatting does not change what the validator of the same type says. *)
Theorem formatDocument_keeps_validity (document type : string) :
  isValidDocument (formatDocument document type) type
  = isValidDocument document type.
Proof.
  unfold isValidDocument, formatDocument.
  destruct (type =? "INDIVIDUAL")%string.
  - unfold isValidCPF. now rewrite formatCPF_digits.
  - unfold isValidCNPJ. now rewrite formatCNPJ_digits.
Qed.

(** X19. The formatters keep the digits of their input, in order, and
    formatting twice is formatting once. *)
Theorem formatters_idempotent (s : string) :
  (only_digits (formatCPF s) = only_digits s
   /\ formatCPF (formatCPF s) = formatCPF s)
  /\ (only_digits (formatCNPJ s) = only_digits s
      /\ formatCNPJ (formatCNPJ s) = formatCNPJ s)
  /\ (only_digits (formatPhone s) = only_digits s
      /\ formatPhone (formatPhone s) = formatPhone s)
  /\ (only_digits (formatCEP s) = only_digits s
      /\ formatCEP (formatCEP s) = formatCEP s).
Proof.
  repeat split.
  - apply formatCPF_digits.
  - unfold formatCPF at 1 3. now rewrite formatCPF_digits.
  - apply formatCNPJ_digits.
  - unfold formatCNPJ at 1 3. now rewrite formatCNPJ_digits.
  - apply formatPhone_digits.
  - unfold formatPhone at 1 3. now rewrite formatPhone_digits.
  - apply formatCEP_digits.
  - unfold formatCEP at 1 3. now rewrite formatCEP_digits.
Qed.

Lemma sum_below_ext (n : nat) (f g : nat -> Z) :
  (forall i, (i < n)%nat -> f i = g i) -> sum_below n f = sum_below n g.
Proof.
  induction n as [|n IH]; intros H; simpl; [reflexivity |].
  rewrite IH by (intros i Hi; apply H; lia). now rewrite H by lia.
Qed.

Lemma get_take (i n : nat) (s : string) :
  (i < n)%nat -> String.get i (take n s) = String.get i s.
Proof.
  revert i s. induction n as [|n IH]; intros i s Hi; [lia |].
  destruct s as [|c s]; [reflexivity |].
  destruct i as [|i]; simpl; [reflexivity | apply IH; lia].
Qed.

Lemma get_beyond (i : nat) (s : string) :
  (String.length s <= i)%nat -> String.get i s = None.
Proof.
  revert i. induction s as [|c s IH]; intros i Hi; [now destruct i |].
  destruct i as [|i]; simpl in *; [lia | apply IH; lia].
Qed.

Lemma get_within (i : nat) (s : string) :
  (i < String.length s)%nat -> exists c, String.get i s = Some c.
Proof.
  revert i. induction s as [|c s IH]; intros i Hi; simpl in Hi; [lia |].
  destruct i as [|i]; simpl; [eauto | apply IH; lia].
Qed.

Lemma nat_of_ascii_inj (c c' : ascii) :
  nat_of_ascii c = nat_of_ascii c' -> c = c'.
Proof.
  intros H. rewrite <- (ascii_nat_embedding c), <- (ascii_nat_embedding c').
  now rewrite H.
Qed.

(** Where both strings have a character, the digit read there tells the
    character. *)
Lemma digit_at_inj (s s' : string) (i : nat) :
  (i < String.length s)%nat -> (i < String.length s')%nat ->
  digit_at s i = digit_at s' i -> String.get i s = String.get i s'.
Proof.
  intros Hs Hs'. unfold digit_at.
  destruct (get_within _ _ Hs) as [c ->].
  destruct (get_within _ _ Hs') as [c' ->].
  intros H. f_equal. apply nat_of_ascii_inj. lia.
Qed.

Lemma digit_at_prefix (n : nat) (x y : string) :
  take n x = take n y ->
  forall i, (i < n)%nat -> digit_at x i = digit_at y i.
Proof.
  intros Ht i Hi. unfold digit_at.
  now rewrite <- (get_take i n x Hi), Ht, (get_take i n y Hi).
Qed.

(** Two strings of [n + 2] characters are equal when they agree on the
    first [n] and on the digits read at [n] and [n + 1]. *)
Lemma equal_by_check_digits (n : nat) (x y : string) :
  String.length x = (n + 2)%nat -> String.length y = (n + 2)%nat ->
  take n x = take n y ->
  digit_at x n = digit_at y n ->
  digit_at x (S n) = digit_at y (S n) ->
  x = y.
Proof.
  intros Lx Ly Ht H1 H2. apply String.get_correct. intros i.
  destruct (Nat.lt_ge_cases i n) as [Hi | Hi].
  - now rewrite <- (get_take i n x Hi), Ht, (get_take i n y Hi).
  - destruct (Nat.eq_dec i n) as [-> | Hn];
      [apply digit_at_inj; [lia | lia | exact H1] |].
    destruct (Nat.eq_dec i (S n)) as [-> | Hn'];
      [apply digit_at_inj; [lia | lia | exact H2] |].
    rewrite !get_beyond by lia. reflexivity.
Qed.

(** X20. The two check digits of a CPF are determined by its first nine
    digits: two valid CPFs with the same first nine digits have the same
    eleven digits. *)
Theorem cpf_check_digits_determined (a b : string) :
  isValidCPF a = true -> isValidCPF b = true ->
  take 9 (only_digits a) = take 9 (only_digits b) ->
  only_digits a = only_digits b.
Proof.
  unfold isValidCPF. cbv zeta.
  set (x := only_digits a). set (y := only_digits b).
  destruct (String.length x =? 11)%nat eqn:Lx; [| discriminate].
  destruct (String.length y =? 11)%nat eqn:Ly; [| discriminate].
  apply Nat.eqb_eq in Lx, Ly. cbn [negb orb].
  destruct (repeated_digit 10 x); [discriminate |].
  destruct (repeated_digit 10 y); [discriminate |].
  intros Ha Hb Ht.
  apply andb_true_iff in Ha as [Ha1 Ha2], Hb as [Hb1 Hb2].
  apply Z.eqb_eq in Ha1, Ha2, Hb1, Hb2.
  pose proof (digit_at_prefix 9 x y Ht) as Hpre.
  assert (H9 : digit_at x 9 = digit_at y 9).
  { rewrite Ha1, Hb1.
    rewrite (sum_below_ext 9 _ (fun i => digit_at y i * (10 - Z.of_nat i)));
      [reflexivity |].
    intros i Hi. now rewrite Hpre. }
  assert (H10 : digit_at x 10 = digit_at y 10).
  { rewrite Ha2, Hb2.
    rewrite (sum_below_ext 10 _ (fun i => digit_at y i * (11 - Z.of_nat i)));
      [reflexivity |].
    intros i Hi. destruct (Nat.eq_dec i 9) as [-> | Hn];
      [now rewrite H9 | rewrite Hpre by lia; reflexivity]. }
  now apply (equal_by_check_digits 9).
Qed.

(** X21. Likewise the two check digits of a CNPJ are determined by its first
    twelve digits. *)
Theorem cnpj_check_digits_determined (a b : string) :
  isValidCNPJ a = true -> isValidCNPJ b = true ->
  take 12 (only_digits a) = take 12 (only_digits b) ->
  only_digits a = only_digits b.
Proof.
  unfold isValidCNPJ. cbv zeta.
  set (x := only_digits a). set (y := only_digits b).
  destruct (String.length x =? 14)%nat eqn:Lx; [| discriminate].
  destruct (String.length y =? 14)%nat eqn:Ly; [| discriminate].
  apply Nat.eqb_eq in Lx, Ly. cbn [negb orb].
  destruct (repeated_digit 13 x); [discriminate |].
  destruct (repeated_digit 13 y); [discriminate |].
  intros Ha Hb Ht.
  apply andb_true_iff in Ha as [Ha1 Ha2], Hb as [Hb1 Hb2].
  apply Z.eqb_eq in Ha1, Ha2, Hb1, Hb2.
  pose proof (digit_at_prefix 12 x y Ht) as Hpre.
  assert (H12 : digit_at x 12 = digit_at y 12).
  { rewrite Ha1, Hb1.
    rewrite (sum_below_ext 12 _ (fun i => digit_at y i * nth i weights1 0));
      [reflexivity |].
    intros i Hi. now rewrite Hpre. }
  assert (H13 : digit_at x 13 = digit_at y 13).
  { rewrite Ha2, Hb2.
    rewrite (sum_below_ext 13 _ (fun i => digit_at y i * nth i weights2 0));
      [reflexivity |].
    intros i Hi. destruct (Nat.eq_dec i 12) as [-> | Hn];
      [now rewrite H12 | rewrite Hpre by lia; reflexivity]. }
  now apply (equal_by_check_digits 12).
Qed.

End ValidatorsFacts.

(** ** Concrete runs of the further properties *)

Lemma deactivateSession_revokes_witness :
  getActiveSession Sample.never_throws Sample.refresh_token Sample.logged_out
  = Ok None Sample.logged_out.
Proof.
  apply (proj1 (deactivateSession_revokes
                  Sample.never_throws Sample.refresh_token
                  Sample.logged_in Sample.logged_out eq_refl)).
  reflexivity.
Defined.

Lemma deactivateSession_idempotent_witness :
  exists st2,
    deactivateSession Sample.never_throws Sample.refresh_token
                      Sample.logged_out = Ok tt st2
    /\ st2 = Sample.logged_out.
Proof.
  eexists. split; [reflexivity |].
  apply (proj1 (deactivateSession_idempotent
                  Sample.never_throws Sample.refresh_token
                  Sample.logged_in Sample.logged_out eq_refl)).
  reflexivity.
Defined.

Lemma createSession_then_getActiveSession_witness :
  getActiveSession Sample.never_throws Sample.refresh_token Sample.logged_in
  = Ok (Some Sample.admin_session) Sample.logged_in.
Proof.
  apply (proj1 (createSession_then_getActiveSession
                  Sample.never_throws "u-1" Sample.refresh_token 604801000
                  (Some "127.0.0.1") (Some "curl/8.5.0") 1000
                  Sample.seeded Sample.logged_in eq_refl)).
  reflexivity.
Defined.

Lemma authenticate_writes_one_audit_row_witness :
  exists st',
    authenticate Sample.verify Sample.never_throws Sample.no_env 2000
                 (Sample.bearer_request Sample.access_token) Sample.logged_in
    = (Next (set_user (Sample.bearer_request Sample.access_token)
                      (identity_of Sample.admin_payload)), st')
    /\ userSessions st' = userSessions Sample.logged_in.
Proof.
  eexists. split; [reflexivity |].
  destruct (authenticate_writes_one_audit_row
              Sample.verify Sample.never_throws Sample.no_env 2000
              (Sample.bearer_request Sample.access_token) Sample.logged_in
              _ _ eq_refl) as (payload & _ & _ & Hsess & _).
  exact Hsess.
Defined.

(** "Bearer" or any other word before the token. *)
Lemma authenticate_ignores_scheme_witness :
  snd (authenticate Sample.verify Sample.never_throws Sample.no_env 2000
                    (with_authorization ("Bearer " ++ Sample.access_token)
                                        Sample.request_base)
                    Sample.logged_in)
  = snd (authenticate Sample.verify Sample.never_throws Sample.no_env 2000
                      (with_authorization ("Basic " ++ Sample.access_token)
                                          Sample.request_base)
                      Sample.logged_in)
  /\ fst (authenticate Sample.verify Sample.never_throws Sample.no_env 2000
                       (with_authorization ("Basic " ++ Sample.access_token)
                                           Sample.request_base)
                       Sample.logged_in)
     = Next (set_user (with_authorization ("Basic " ++ Sample.access_token)
                                          Sample.request_base)
                      (identity_of Sample.admin_payload)).
Proof.
  assert (H : forall w, w = "Bearer" \/ w = "Basic" ->
                        forall c, In c (list_ascii_of_string w) ->
                                  c <> " "%char).
  { intros w [-> | ->] c Hc; simpl in Hc;
      repeat (destruct Hc as [<- | Hc]; [discriminate |]); contradiction. }
  split; [| reflexivity].
  exact (proj1 (authenticate_ignores_scheme
                  Sample.verify Sample.never_throws Sample.no_env 2000
                  Sample.request_base Sample.logged_in
                  "Bearer" "Basic" Sample.access_token
                  (H _ (or_introl eq_refl)) (H _ (or_intror eq_refl)))).
Defined.

Lemma logout_handler_effects_witness :
  exists st',
    logout_handler Sample.never_throws 2000
                   (set_user (Sample.logout_request Sample.access_token
                                                    Sample.refresh_token)
                             (identity_of Sample.admin_payload))
                   Sample.logged_in
    = (message 200 "Logged out successfully", st')
    /\ userSessions st' = [Sample.revoked_session]
    /\ length (auditLogs st') = 1%nat.
Proof.
  eexists. split; [reflexivity |].
  destruct (logout_handler_effects
              Sample.never_throws 2000
              (set_user (Sample.logout_request Sample.access_token
                                               Sample.refresh_token)
                        (identity_of Sample.admin_payload))
              Sample.logged_in _ _ eq_refl eq_refl)
    as (u & _ & _ & Hsess & Hlogs).
  split; [exact Hsess | rewrite Hlogs; reflexivity].
Defined.

(** Logout, then refresh with the same token: 401. *)
Lemma logout_then_refresh_refused_witness :
  fst (refresh Sample.sign Sample.verify Sample.never_throws Sample.no_env
               3000 (Sample.refresh_request Sample.refresh_token)
               (snd (logout Sample.verify Sample.never_throws Sample.no_env
                            2000
                            (Sample.logout_request Sample.access_token
                                                   Sample.refresh_token)
                            Sample.logged_in)))
  = message 401 "Session not found or expired".
Proof.
  destruct (logout_then_refresh_refused
              Sample.sign Sample.verify Sample.never_throws Sample.no_env
              2000
              (Sample.logout_request Sample.access_token
                                     Sample.refresh_token)
              Sample.logged_in Sample.refresh_token
              eq_refl eq_refl ltac:(discriminate)
              3000 (Sample.refresh_request Sample.refresh_token) eq_refl)
    as [_ Hmsg].
  apply (Hmsg Sample.admin_payload); reflexivity.
Defined.


Lemma failed_login_writes_nothing_witness :
  snd (login Sample.sign Sample.compare Sample.never_throws Sample.no_env
             1000 (Sample.login_request "admin@mecone.com" "wrong")
             Sample.seeded)
  = Sample.seeded.
Proof.
  apply failed_login_writes_nothing. right. reflexivity.
Defined.

Lemma login_then_refresh_witness :
  status
    (fst (refresh Sample.sign Sample.verify Sample.never_throws
                  Sample.no_env 2000
                  (Sample.refresh_request Sample.refresh_token)
                  (snd (login Sample.sign Sample.compare Sample.never_throws
                              Sample.no_env 1000
                              (Sample.login_request "admin@mecone.com"
                                                    "admin123")
                              Sample.seeded))))
  = 200.
Proof.
  assert (Hids : NoDup (map user_id (users Sample.seeded))).
  { simpl. constructor; [intros [] | constructor]. }
  destruct (login_then_refresh
              Sample.sign Sample.verify Sample.compare Sample.never_throws
              Sample.no_env 1000 2000
              (Sample.login_request "admin@mecone.com" "admin123")
              (Sample.refresh_request Sample.refresh_token)
              Sample.seeded eq_refl Hids)
    as (user & Hbody & Hrefresh).
  assert (Hid : user_id user = "u-1").
  { simpl in Hbody. injection Hbody as Hid _. exact (eq_sym Hid). }
  rewrite (Hrefresh Sample.admin_payload eq_refl ltac:(discriminate) eq_refl
                    (eq_sym Hid) (fun _ => eq_refl)).
  reflexivity.
Defined.

(** The deactivated administrator cannot log in any more. *)
Lemma deactivated_user_locked_out_witness :
  status
    (fst (login Sample.sign Sample.compare Sample.never_throws Sample.no_env
                4000 (Sample.login_request "admin@mecone.com" "admin123")
                Sample.closed_account))
  <> 200.
Proof.
  destruct (deactivated_user_locked_out
              Sample.sign Sample.verify Sample.compare Sample.never_throws
              Sample.no_env Sample.users_quiet "u-1" 3000
              Sample.seeded Sample.closed_account eq_refl)
    as (_ & _ & _ & Hlogin).
  apply (Hlogin 4000 _ "admin@mecone.com" Sample.former_admin);
    reflexivity.
Defined.


(** The same answer for a known and for an unknown email. *)
Lemma forgot_password_uniform_answer_witness :
  fst (forgot_password Sample.never_throws Sample.hash Sample.users_quiet
                       Sample.one_half 5000
                       (Sample.forgot_request "admin@mecone.com")
                       Sample.seeded)
  = fst (forgot_password Sample.never_throws Sample.hash Sample.users_quiet
                         Sample.one_half 5000
                         (Sample.forgot_request "nobody@mecone.com")
                         Sample.seeded).
Proof.
  rewrite (forgot_password_uniform_answer
             Sample.never_throws Sample.hash Sample.users_quiet
             Sample.one_half 5000 (Sample.forgot_request "admin@mecone.com")
             Sample.seeded "admin@mecone.com"
             (fun _ _ => eq_refl) (fun _ _ => eq_refl) eq_refl
             ltac:(discriminate)).
  rewrite (forgot_password_uniform_answer
             Sample.never_throws Sample.hash Sample.users_quiet
             Sample.one_half 5000 (Sample.forgot_request "nobody@mecone.com")
             Sample.seeded "nobody@mecone.com"
             (fun _ _ => eq_refl) (fun _ _ => eq_refl) eq_refl
             ltac:(discriminate)).
  reflexivity.
Defined.




Lemma cpf_check_digits_determined_witness :
  Validators.only_digits "529.982.247-25" = "52998224725".
Proof.
  apply (ValidatorsFacts.cpf_check_digits_determined
           "529.982.247-25" "52998224725"); reflexivity.
Defined.

Lemma cnpj_check_digits_determined_witness :
  Validators.only_digits "11.222.333/0001-81" = "11222333000181".
Proof.
  apply (ValidatorsFacts.cnpj_check_digits_determined
           "11.222.333/0001-81" "11222333000181"); reflexivity.
Defined.
